(** * smeshLLM: the Raspberry Pi telemetry uploaders

    A shallow embedding of [raspberry_pi_meshtastic_uploader.py] and of the
    enqueue path of [raspberry_pi_supabase_uploader.py], with the properties
    of the record normalizer, of the upload queue and of the batch uploader.

    Python values are an inductive type, dictionaries are finite maps, the
    uploader object is a record threaded through a small monad that also
    collects the calls made to the outside world (HTTP POST, sleep, join,
    exit) and that can raise or block for ever on a lock. *)

From Stdlib Require Import ZArith SpecFloat.
From stdpp Require Import gmap strings list fin_maps.

#[local] Set Warnings "-register-all".
#[local] Open Scope Z_scope.
#[local] Open Scope string_scope.

(** ** Python values *)

Module Py.

(** The values a decoded packet is made of.  Floats are IEEE-754 values
    in their specification form: only their truth value matters here. *)
Inductive pyval : Type :=
| PyNone
| PyBool (b : bool)
| PyInt (z : Z)
| PyFloat (f : spec_float)
| PyStr (s : string)
| PyList (l : list pyval)
| PyDict (d : gmap string pyval).

(** The exceptions the modelled code can meet.  [RequestException] stands
    for the whole [requests.exceptions.RequestException] family (timeouts
    and connection errors included); the others are plain [Exception]s. *)
Inductive exn : Type :=
| RequestException
| ValueError
| TypeError
| AttributeError
| KeyError
| RuntimeError
| OverflowError.

Definition is_RequestException (e : exn) : bool :=
  match e with RequestException => true | _ => false end.

(** [bool(v)] *)
Definition truthy (v : pyval) : bool :=
  match v with
  | PyNone => false
  | PyBool b => b
  | PyInt z => negb (Z.eqb z 0)
  | PyFloat (S754_zero _) => false
  | PyFloat _ => true
  | PyStr s => negb (String.eqb s "")
  | PyList l => negb (Nat.eqb (length l) 0)
  | PyDict d => negb (Nat.eqb (size d) 0)
  end.

(** [a or b] *)
Definition or_ (a b : pyval) : pyval := if truthy a then a else b.

(** [d.get(k)] and [d.get(k, dflt)] on a dictionary *)
Definition get (d : gmap string pyval) (k : string) : pyval :=
  default PyNone (d !! k).

Definition get_default (d : gmap string pyval) (k : string) (dflt : pyval)
  : pyval :=
  default dflt (d !! k).

(** [v.get(k)] on any value: only dictionaries have the method. *)
Definition getattr_get (v : pyval) (k : string) : exn + pyval :=
  match v with
  | PyDict d => inr (get d k)
  | _ => inl AttributeError
  end.

Definition is_str (k : string) (v : pyval) : bool :=
  match v with PyStr s => String.eqb s k | _ => false end.

(** [k in v] for a string [k]: key test on a dictionary, element test on a
    list, substring test on a string, [TypeError] elsewhere. *)
Definition contains (k : string) (v : pyval) : exn + bool :=
  match v with
  | PyDict d => inr (bool_decide (is_Some (d !! k)))
  | PyList l => inr (existsb (is_str k) l)
  | PyStr s => inr (bool_decide (is_Some (String.index 0 k s)))
  | _ => inl TypeError
  end.

(** [hex(v)], for what it raises: only integers have a hexadecimal form. *)
Definition hex (v : pyval) : exn + unit :=
  match v with
  | PyInt _ | PyBool _ => inr tt
  | _ => inl TypeError
  end.

(** [v[k]] for a string [k] *)
Definition getitem (v : pyval) (k : string) : exn + pyval :=
  match v with
  | PyDict d => match d !! k with Some x => inr x | None => inl KeyError end
  | _ => inl TypeError
  end.

(** [l[:n]] and what [del l[:n]] leaves, for any integer [n]: a negative
    bound counts from the end of the list. *)
Definition slice_to {A} (n : Z) (l : list A) : list A :=
  if Z.leb 0 n then take (Z.to_nat n) l
  else take (Nat.sub (length l) (Z.to_nat (Z.opp n))) l.

Definition del_slice_to {A} (n : Z) (l : list A) : list A :=
  if Z.leb 0 n then drop (Z.to_nat n) l
  else drop (Nat.sub (length l) (Z.to_nat (Z.opp n))) l.

(** [s.rstrip("/")] *)
Fixpoint rstrip_slash (s : string) : string :=
  match s with
  | EmptyString => EmptyString
  | String c s' =>
      match rstrip_slash s' with
      | EmptyString => if Ascii.eqb c (Ascii.ascii_of_nat 47) then EmptyString
          else String c EmptyString
      | r => String c r
      end
  end.

End Py.
Import Py.

(** ** The record normalizer of [raspberry_pi_meshtastic_uploader.py] *)

Module Normalizer.

Section WithClock.

(** [datetime] objects and their [isoformat()] belong to the Python
    library; the normalizer only copies the formatted string. *)
Variable datetime : Type.
Variable isoformat : datetime -> string.

(** [_format_device_metrics]: the dictionary literal is built only when
    [metrics.get] exists; any exception is logged and gives [None]. *)
Definition _format_device_metrics
    (node_id metrics : pyval) (packet : gmap string pyval)
    (timestamp : datetime) : pyval :=
  match metrics with
  | PyDict m =>
      PyDict (list_to_map
        [ ("sensor_id", node_id);
          ("timestamp", PyStr (isoformat timestamp));
          ("telemetry_type", PyStr "device");
          ("location", PyNone);
          ("voltage", get m "voltage");
          ("battery_level", get m "batteryLevel");
          ("air_util_tx", get m "airUtilTx");
          ("uptime_seconds", get m "uptimeSeconds");
          ("channel_utilization", get m "channelUtilization");
          ("temperature_c", PyNone);
          ("relative_humidity_pct", PyNone);
          ("barometric_pressure", PyNone);
          ("gas_resistance", PyNone);
          ("iaq", PyNone);
          ("wind_direction", PyNone);
          ("wind_speed", PyNone);
          ("pm25_ugm3", PyNone);
          ("pm10_ugm3", PyNone);
          ("pm100_ugm3", PyNone);
          ("pm1_ugm3", PyNone);
          ("ch3_voltage", PyNone);
          ("ch3_current", PyNone);
          ("rssi", get packet "rxRssi");
          ("snr", get packet "rxSnr");
          ("hop_limit", get packet "hopLimit");
          ("hop_start", PyNone);
          ("raw_data", metrics) ])
  | _ => PyNone
  end.

(** [_format_environment_metrics] *)
Definition _format_environment_metrics
    (node_id metrics : pyval) (packet : gmap string pyval)
    (timestamp : datetime) : pyval :=
  match metrics with
  | PyDict m =>
      PyDict (list_to_map
        [ ("sensor_id", node_id);
          ("timestamp", PyStr (isoformat timestamp));
          ("telemetry_type", PyStr "environment");
          ("location", PyNone);
          ("voltage", PyNone);
          ("battery_level", PyNone);
          ("air_util_tx", PyNone);
          ("uptime_seconds", PyNone);
          ("channel_utilization", PyNone);
          ("temperature_c", get m "temperature");
          ("relative_humidity_pct", get m "relativeHumidity");
          ("barometric_pressure", get m "barometricPressure");
          ("gas_resistance", get m "gasResistance");
          ("iaq", get m "iaq");
          ("wind_direction", get m "windDirection");
          ("wind_speed", get m "windSpeed");
          ("pm25_ugm3", PyNone);
          ("pm10_ugm3", PyNone);
          ("pm100_ugm3", PyNone);
          ("pm1_ugm3", PyNone);
          ("ch3_voltage", PyNone);
          ("ch3_current", PyNone);
          ("rssi", get packet "rxRssi");
          ("snr", get packet "rxSnr");
          ("hop_limit", PyNone);
          ("hop_start", PyNone);
          ("raw_data", metrics) ])
  | _ => PyNone
  end.

(** [_format_air_quality_metrics] *)
Definition _format_air_quality_metrics
    (node_id metrics : pyval) (packet : gmap string pyval)
    (timestamp : datetime) : pyval :=
  match metrics with
  | PyDict m =>
      PyDict (list_to_map
        [ ("sensor_id", node_id);
          ("timestamp", PyStr (isoformat timestamp));
          ("telemetry_type", PyStr "air_quality");
          ("location", PyNone);
          ("voltage", PyNone);
          ("battery_level", PyNone);
          ("air_util_tx", PyNone);
          ("uptime_seconds", PyNone);
          ("channel_utilization", PyNone);
          ("temperature_c", PyNone);
          ("relative_humidity_pct", PyNone);
          ("barometric_pressure", PyNone);
          ("gas_resistance", PyNone);
          ("iaq", PyNone);
          ("wind_direction", PyNone);
          ("wind_speed", PyNone);
          ("pm25_ugm3", or_ (get m "pm25Standard") (get m "pm25Environmental"));
          ("pm10_ugm3", or_ (get m "pm10Standard") (get m "pm10Environmental"));
          ("pm100_ugm3", or_ (get m "pm100Standard") (get m "pm100Environmental"));
          ("pm1_ugm3", get m "pm10Standard");
          ("ch3_voltage", PyNone);
          ("ch3_current", PyNone);
          ("rssi", get packet "rxRssi");
          ("snr", get packet "rxSnr");
          ("hop_limit", PyNone);
          ("hop_start", PyNone);
          ("raw_data", metrics) ])
  | _ => PyNone
  end.

End WithClock.

(** The three record kinds and the formatter of each. *)
Inductive kind : Type := device | environment | air_quality.

Definition kind_name (k : kind) : string :=
  match k with
  | device => "device"
  | environment => "environment"
  | air_quality => "air_quality"
  end.

Definition normalize {datetime} (isoformat : datetime -> string) (k : kind)
  : pyval -> pyval -> gmap string pyval -> datetime -> pyval :=
  match k with
  | device => _format_device_metrics datetime isoformat
  | environment => _format_environment_metrics datetime isoformat
  | air_quality => _format_air_quality_metrics datetime isoformat
  end.

(** [r[f]] of a produced record, as an optional value: [None] is a key
    that the record does not have. *)
Definition field (r : pyval) (f : string) : option pyval :=
  match r with PyDict d => d !! f | _ => None end.

Definition keys (r : pyval) : gset string :=
  match r with PyDict d => dom d | _ => ∅ end.

End Normalizer.

(** ** Effects: state, exceptions, blocking and calls to the outside *)

Module Eff.

(** What the program asks of the outside world, in the order of the calls. *)
Inductive event : Type :=
| CallPost (url : string) (json : pyval) (timeout : Z)
| Sleep (seconds : Z)
| Join (timeout : Z)
| Unsubscribe
| CloseInterface
| Exit (code : Z).

Definition is_CallPost (e : event) : bool :=
  match e with CallPost _ _ _ => true | _ => false end.

(** A computation on a state [S] returns, raises, or blocks for ever
    (a thread that acquires a non-reentrant lock it already holds). *)
Inductive outcome (S A : Type) : Type :=
| Done (a : A) (s : S) (evs : list event)
| Raised (e : exn) (s : S) (evs : list event)
| Blocked (s : S) (evs : list event).
Arguments Done {S A} a s evs.
Arguments Raised {S A} e s evs.
Arguments Blocked {S A} s evs.

Definition M (S A : Type) : Type := S -> outcome S A.

Definition events {S A} (o : outcome S A) : list event :=
  match o with Done _ _ evs | Raised _ _ evs | Blocked _ evs => evs end.

Definition final {S A} (o : outcome S A) : S :=
  match o with Done _ s _ | Raised _ s _ | Blocked s _ => s end.

Definition returns {S A} (o : outcome S A) : bool :=
  match o with Done _ _ _ => true | _ => false end.

Definition after {S A} (evs : list event) (o : outcome S A) : outcome S A :=
  match o with
  | Done a s evs' => Done a s (evs ++ evs')
  | Raised e s evs' => Raised e s (evs ++ evs')
  | Blocked s evs' => Blocked s (evs ++ evs')
  end.

Definition ret {S A} (a : A) : M S A := fun s => Done a s [].

Definition bind {S A B} (m : M S A) (k : A -> M S B) : M S B :=
  fun s =>
    match m s with
    | Done a s' evs => after evs (k a s')
    | Raised e s' evs => Raised e s' evs
    | Blocked s' evs => Blocked s' evs
    end.

Definition raise {S A} (e : exn) : M S A := fun s => Raised e s [].
Definition block {S A} : M S A := fun s => Blocked s [].
Definition gets {S A} (f : S -> A) : M S A := fun s => Done (f s) s [].
Definition modify {S} (f : S -> S) : M S unit := fun s => Done tt (f s) [].
Definition emit {S} (e : event) : M S unit := fun s => Done tt s [e].

(** An operation of [Py] that may raise *)
Definition lift {S A} (r : exn + A) : M S A :=
  match r with inl e => raise e | inr a => ret a end.

(** The longest sleep, in whole seconds, that [time.sleep] accepts: the
    length is held in nanoseconds in a signed 64-bit integer. *)
Definition MAX_SLEEP : Z := 9223372036.

Definition sleep_ok (seconds : Z) : bool :=
  Z.leb 0 seconds && Z.leb seconds MAX_SLEEP.

(** [time.sleep(seconds)] for an integer: a length that does not fit
    raises [OverflowError], a negative one [ValueError]; no sleep takes
    place then. *)
Definition sleep {S} (seconds : Z) : M S unit :=
  if Z.ltb MAX_SLEEP (Z.abs seconds) then raise OverflowError
  else if Z.ltb seconds 0 then raise ValueError
  else emit (Sleep seconds).

(** [try: m except <the exceptions h accepts>: h e] *)
Definition try_except {S A} (m : M S A) (h : exn -> option (M S A)) : M S A :=
  fun s =>
    match m s with
    | Raised e s' evs =>
        match h e with
        | Some handler => after evs (handler s')
        | None => Raised e s' evs
        end
    | o => o
    end.

(** [try: m finally: f] where [f] neither raises nor blocks *)
Definition finally {S A} (m : M S A) (f : S -> S) : M S A :=
  fun s =>
    match m s with
    | Done a s' evs => Done a (f s') evs
    | Raised e s' evs => Raised e (f s') evs
    | Blocked s' evs => Blocked s' evs
    end.

(** Run a computation on a component of a larger state. *)
Definition zoom {S T A} (proj : T -> S) (inj : S -> T -> T) (m : M S A)
  : M T A :=
  fun t =>
    match m (proj t) with
    | Done a s evs => Done a (inj s t) evs
    | Raised e s evs => Raised e (inj s t) evs
    | Blocked s evs => Blocked (inj s t) evs
    end.


End Eff.
Import Eff.

#[export] Instance M_ret {S} : MRet (M S) := fun A => @ret S A.
#[export] Instance M_bind {S} : MBind (M S) := fun A B k m => @bind S A B m k.

(** ** What a [requests] session answers *)

Module Http.

(** What [response.status_code], [response.text] and [response.json()]
    give; [json_body = None] is a body that is not JSON ([ValueError]). *)
Record response : Type := Response {
  status_code : Z;
  text : string;
  json_body : option pyval
}.

(** What [session.post] does: it returns a response or raises. *)
Inductive post_result : Type :=
| Responds (r : response)
| Fails (e : exn).

End Http.
Import Http.

(** ** [MeshtasticTelemetryUploader] and [MeshtasticReceiver] *)

Module Meshtastic.

(** The module-level configuration, read from the environment at start. *)
Record config : Type := Config {
  SUPABASE_URL : string;
  API_BASE_URL : string;
  UPLOAD_BATCH_SIZE : Z;
  UPLOAD_INTERVAL_SEC : Z
}.

(** A list argument is a reference: either a list of its own, or the
    uploader's queue itself ([shutdown] passes [self.upload_queue]). *)
Inductive listref : Type :=
| Fresh (l : list pyval)
| TheQueue.

Section Uploader.

Variable datetime : Type.
Variable isoformat : datetime -> string.
Variable cfg : config.

(** The fields of the uploader object; [queue_lock] is [true] while the
    [threading.Lock] is held. *)
Record uploader : Type := Uploader {
  upload_queue : list pyval;
  queue_lock : bool;
  running : bool;
  last_upload : datetime;
  total_uploaded : Z
}.

Definition set_upload_queue (f : list pyval -> list pyval) (u : uploader)
  : uploader :=
  Uploader (f (upload_queue u)) (queue_lock u) (running u) (last_upload u)
           (total_uploaded u).
Definition set_queue_lock (b : bool) (u : uploader) : uploader :=
  Uploader (upload_queue u) b (running u) (last_upload u) (total_uploaded u).
Definition set_running (b : bool) (u : uploader) : uploader :=
  Uploader (upload_queue u) (queue_lock u) b (last_upload u)
           (total_uploaded u).
Definition set_last_upload (t : datetime) (u : uploader) : uploader :=
  Uploader (upload_queue u) (queue_lock u) (running u) t (total_uploaded u).
Definition set_total_uploaded (f : Z -> Z) (u : uploader) : uploader :=
  Uploader (upload_queue u) (queue_lock u) (running u) (last_upload u)
           (f (total_uploaded u)).

(** [__init__]: an empty queue, a free lock, nothing uploaded yet. *)
Definition init (now : datetime) : uploader :=
  Uploader [] false true now 0.

(** [with self.queue_lock: body]; the lock is released when the body
    returns or raises.  Acquiring the lock while it is held never ends. *)
Definition acquire : M uploader unit :=
  held ← gets queue_lock;
  if (held : bool) then block else modify (set_queue_lock true).

Definition with_queue_lock {A} (body : M uploader A) : M uploader A :=
  acquire;; finally body (set_queue_lock false).

Definition deref (b : listref) : M uploader (list pyval) :=
  match b with
  | Fresh l => ret l
  | TheQueue => gets upload_queue
  end.

(** [self.upload_queue.append(r)] under the lock, as [add_telemetry]
    does for each record it keeps. *)
Definition enqueue (r : pyval) : M uploader unit :=
  with_queue_lock (modify (set_upload_queue (fun q => (q ++ [r])%list))).

(** [self.upload_queue.extend(batch)] under the lock *)
Definition requeue (batch : listref) : M uploader unit :=
  with_queue_lock
    (b ← deref batch; modify (set_upload_queue (fun q => (q ++ b)%list))).

(** One metrics group of [add_telemetry]. *)
Definition add_group (key : string)
    (format : pyval -> pyval -> gmap string pyval -> datetime -> pyval)
    (node_id telemetry : pyval) (packet : gmap string pyval)
    (timestamp : datetime) : M uploader unit :=
  present ← lift (contains key telemetry);
  if (present : bool) then
    metrics ← lift (getitem telemetry key);
    let data := format node_id metrics packet timestamp in
    if truthy data then enqueue data else mret tt
  else mret tt.

(** [add_telemetry]; [now] is what [datetime.now(timezone.utc)] reads. *)
Definition add_telemetry (now : datetime) (node_id : pyval)
    (packet : gmap string pyval) : M uploader unit :=
  try_except
    (let timestamp := now in
     has_telemetry ←
       match packet !! "decoded" with
       | Some decoded => lift (contains "telemetry" decoded)
       | None => mret false
       end;
     if (has_telemetry : bool) then
       telemetry ← lift (getitem (get packet "decoded") "telemetry");
       add_group "deviceMetrics"
         (Normalizer._format_device_metrics datetime isoformat)
         node_id telemetry packet timestamp;;
       add_group "environmentMetrics"
         (Normalizer._format_environment_metrics datetime isoformat)
         node_id telemetry packet timestamp;;
       add_group "airQualityMetrics"
         (Normalizer._format_air_quality_metrics datetime isoformat)
         node_id telemetry packet timestamp
     else mret tt)
    (fun _ => Some (mret tt)).

(** The address of the POST. *)
Definition upload_url : string :=
  if truthy (PyStr (API_BASE_URL cfg))
  then rstrip_slash (API_BASE_URL cfg) ++ "/api/ingest/meshtastic"
  else rstrip_slash (SUPABASE_URL cfg) ++ "/rest/v1/meshtastic_telemetry".

Definition status_ok (code : Z) : bool :=
  Z.eqb code 200 || Z.eqb code 201.

(** How [_upload_batch] reads the end of a POST: [accepted] is its
    [if] branch, [rejected] the two paths that re-queue (the [else]
    branch and the [RequestException] handler); a POST that is neither
    raised another exception. *)
Definition accepted (post : post_result) : bool :=
  match post with
  | Responds r => status_ok (status_code r)
  | Fails _ => false
  end.

Definition rejected (post : post_result) : bool :=
  match post with
  | Responds r => negb (status_ok (status_code r))
  | Fails e => is_RequestException e
  end.

(** [_upload_batch]; [post] is what the POST of this call does and [now]
    what [datetime.now()] reads after a success.  Logging is left out. *)
Definition _upload_batch (post : post_result) (now : datetime)
    (batch : listref) : M uploader unit :=
  b ← deref batch;
  if negb (truthy (PyList b)) then mret tt
  else
    try_except
      (emit (CallPost upload_url (PyList b) 30);;
       match post with
       | Fails e => raise e
       | Responds r =>
           if status_ok (status_code r) then
             sent ← deref batch;
             modify (set_total_uploaded (fun n => n + Z.of_nat (length sent)));;
             modify (set_last_upload now)
           else requeue batch
       end)
      (fun e =>
         if is_RequestException e then Some (requeue batch)
         else Some (mret tt)).

(** The locked block of [_upload_worker]: [None] is its [continue]. *)
Definition drain : M uploader (option (list pyval)) :=
  with_queue_lock
    (q ← gets upload_queue;
     if Nat.eqb (length q) 0 then mret None
     else
       let batch := slice_to (UPLOAD_BATCH_SIZE cfg) q in
       modify (set_upload_queue (del_slice_to (UPLOAD_BATCH_SIZE cfg)));;
       mret (Some batch)).

(** One turn of the loop of [_upload_worker]: the sleep is inside the
    [try], so a flush interval that [time.sleep] refuses ends the turn in
    the handler, before the queue is looked at. *)
Definition _upload_worker_turn (post : post_result) (now : datetime)
  : M uploader unit :=
  try_except
    (sleep (UPLOAD_INTERVAL_SEC cfg);;
     drained ← drain;
     match drained with
     | None => mret tt
     | Some batch =>
         if truthy (PyList batch) then _upload_batch post now (Fresh batch)
         else mret tt
     end)
    (fun _ => Some (sleep 5)).

(** [_upload_worker]: [while self.running], one turn per element of
    [inputs] (what the POST and the clock of that turn do). *)
Fixpoint _upload_worker (inputs : list (post_result * datetime))
  : M uploader unit :=
  match inputs with
  | [] => mret tt
  | (post, now) :: inputs' =>
      go ← gets running;
      if (go : bool) then
        _upload_worker_turn post now;; _upload_worker inputs'
      else mret tt
  end.

(** [get_stats]: the queue size and the counter. *)
Definition get_stats : M uploader (nat * Z) :=
  queue_size ← with_queue_lock (gets (fun u => length (upload_queue u)));
  total ← gets total_uploaded;
  mret (queue_size, total).

(** [shutdown]; [thread_alive] is what [upload_thread.is_alive()] says. *)
Definition shutdown (post : post_result) (now : datetime)
    (thread_alive : bool) : M uploader unit :=
  modify (set_running false);;
  with_queue_lock
    (q ← gets upload_queue;
     if truthy (PyList q) then
       _upload_batch post now TheQueue;;
       modify (set_upload_queue (fun _ => []))
     else mret tt);;
  if thread_alive then emit (Join 10) else mret tt.

(** The receiver object, as far as [stop] and [_on_receive] use it. *)
Record receiver : Type := Receiver {
  interface : bool;
  receiver_running : bool;
  packets_received : Z;
  telemetry_packets : Z
}.

(** The two module-level objects. *)
Record app : Type := App {
  the_receiver : receiver;
  the_uploader : uploader
}.

Definition on_uploader {A} (m : M uploader A) : M app A :=
  zoom the_uploader (fun u a => App (the_receiver a) u) m.
Definition on_receiver {A} (m : M receiver A) : M app A :=
  zoom the_receiver (fun r a => App r (the_uploader a)) m.

(** [MeshtasticReceiver.stop] *)
Definition stop : M receiver unit :=
  modify (fun r => Receiver (interface r) false (packets_received r)
                            (telemetry_packets r));;
  connected ← gets interface;
  if (connected : bool) then emit Unsubscribe;; emit CloseInterface
  else mret tt.

(** [MeshtasticReceiver._on_receive], up to the call of [add_telemetry];
    the logging that follows it changes nothing and raises, if at all,
    into the same handler. *)
Definition _on_receive (now : datetime) (packet : gmap string pyval)
  : M app unit :=
  try_except
    (on_receiver (modify (fun r =>
       Receiver (interface r) (receiver_running r)
                (packets_received r + 1) (telemetry_packets r)));;
     let from_node := get_default packet "from" (PyInt 0) in
     let from_id := get_default packet "fromId" (PyStr "unknown") in
     (if truthy from_node then lift (hex from_node) else mret tt);;
     portnum ← lift (getattr_get (get_default packet "decoded" (PyDict ∅))
                                 "portnum");
     if is_str "TELEMETRY_APP" portnum then
       on_receiver (modify (fun r =>
         Receiver (interface r) (receiver_running r)
                  (packets_received r) (telemetry_packets r + 1)));;
       on_uploader (add_telemetry now from_id packet)
     else mret tt)
    (fun _ => Some (mret tt)).

(** [signal_handler]: stop the receiver, shut the uploader down, exit. *)
Definition signal_handler (post : post_result) (now : datetime)
    (thread_alive : bool) : M app unit :=
  on_receiver stop;;
  on_uploader (shutdown post now thread_alive);;
  emit (Exit 0).

End Uploader.

Arguments upload_queue {datetime} u.
Arguments queue_lock {datetime} u.
Arguments running {datetime} u.
Arguments last_upload {datetime} u.
Arguments total_uploaded {datetime} u.
Arguments Uploader {datetime} _ _ _ _ _.
Arguments the_uploader {datetime} a.
Arguments the_receiver {datetime} a.
Arguments App {datetime} _ _.

End Meshtastic.

(** ** [SupabaseUploader] and [MeshtasticDataReader] of
       [raspberry_pi_supabase_uploader.py] *)

Module Supabase.

(** The [SensorReading] dataclass; an unset field holds [None]. *)
Record SensorReading : Type := mkSensorReading {
  sensor_id : pyval;
  timestamp : pyval;
  latitude : pyval;
  longitude : pyval;
  altitude_m : pyval;
  pm25_ugm3 : pyval;
  pm10_ugm3 : pyval;
  temperature_c : pyval;
  relative_humidity_pct : pyval;
  voltage : pyval;
  battery_level : pyval;
  air_util_tx : pyval;
  uptime_seconds : pyval;
  rssi : pyval;
  snr : pyval;
  raw_data : pyval
}.

Definition is_None (v : pyval) : bool :=
  match v with PyNone => true | _ => false end.

(** [if v is not None: data[k] = v] *)
Definition set_if_present (k : string) (v : pyval) (data : gmap string pyval)
  : gmap string pyval :=
  if is_None v then data else <[k := v]> data.

(** The dictionary that [upload_batch] builds for one reading; the
    assignments are listed in the order of the source. *)
Definition payload_of (reading : SensorReading) : pyval :=
  let data : gmap string pyval :=
    list_to_map [ ("sensor_id", sensor_id reading);
                  ("timestamp", timestamp reading) ] in
  let data :=
    if negb (is_None (latitude reading)) && negb (is_None (longitude reading))
    then <["location" :=
             PyDict (list_to_map [ ("latitude", latitude reading);
                                   ("longitude", longitude reading) ])]> data
    else data in
  let data := set_if_present "pm25_ugm3" (pm25_ugm3 reading) data in
  let data := set_if_present "pm10_ugm3" (pm10_ugm3 reading) data in
  let data := set_if_present "temperature_c" (temperature_c reading) data in
  let data := set_if_present "relative_humidity_pct"
                (relative_humidity_pct reading) data in
  let data := set_if_present "altitude_m" (altitude_m reading) data in
  let data := set_if_present "voltage" (voltage reading) data in
  let data := set_if_present "battery_level" (battery_level reading) data in
  let data := set_if_present "air_util_tx" (air_util_tx reading) data in
  let data := set_if_present "uptime_seconds" (uptime_seconds reading) data in
  let data := set_if_present "rssi" (rssi reading) data in
  let data := set_if_present "snr" (snr reading) data in
  PyDict data.

Section Uploader.

Variable datetime : Type.
Variable isoformat : datetime -> string.
(** [BATCH_SIZE], read from the environment at start *)
Variable BATCH_SIZE : Z.

(** The uploader object: [api_base] and the pending readings. *)
Record uploader : Type := Uploader {
  api_base : string;
  pending_readings : list SensorReading
}.

Definition set_pending (f : list SensorReading -> list SensorReading)
    (u : uploader) : uploader :=
  Uploader (api_base u) (f (pending_readings u)).

(** [upload_batch]: one POST of every pending reading; the readings are
    kept unless the answer is 200 with a JSON object as body. *)
Definition upload_batch (post : post_result) : M uploader unit :=
  pending ← gets pending_readings;
  if Nat.eqb (length pending) 0 then mret tt
  else
    try_except
      (let payload := PyList (map payload_of pending) in
       base ← gets api_base;
       emit (CallPost (base ++ "/api/ingest/sensors") payload 30);;
       match post with
       | Fails e => raise e
       | Responds r =>
           if Z.eqb (status_code r) 200 then
             result ← lift (match json_body r with
                            | Some v => inr v
                            | None => inl ValueError
                            end);
             lift (getattr_get result "message");;
             modify (set_pending (fun _ => []))
           else mret tt
       end)
      (fun _ => Some (mret tt)).

(** [add_reading]: append, and upload at once when the batch is full. *)
Definition add_reading (post : post_result) (reading : SensorReading)
  : M uploader unit :=
  modify (set_pending (fun p => (p ++ [reading])%list));;
  pending ← gets pending_readings;
  if Z.leb BATCH_SIZE (Z.of_nat (length pending)) then upload_batch post
  else mret tt.

(** The reader object, as far as the receiving path uses it. *)
Record reader : Type := Reader {
  the_uploader : uploader;
  default_lat : pyval;
  default_lon : pyval
}.

Definition on_uploader {A} (m : M uploader A) : M reader A :=
  zoom the_uploader
       (fun u r => Reader u (default_lat r) (default_lon r)) m.

Definition device_reading (from_id : pyval) (now : datetime)
    (lat lon : pyval) (metrics packet : gmap string pyval)
  : SensorReading :=
  {| sensor_id := from_id;
     timestamp := PyStr (isoformat now);
     latitude := lat;
     longitude := lon;
     altitude_m := PyNone;
     pm25_ugm3 := PyNone;
     pm10_ugm3 := PyNone;
     temperature_c := PyNone;
     relative_humidity_pct := PyNone;
     voltage := get metrics "voltage";
     battery_level := get metrics "batteryLevel";
     air_util_tx := get metrics "airUtilTx";
     uptime_seconds := get metrics "uptimeSeconds";
     rssi := get packet "rxRssi";
     snr := get packet "rxSnr";
     raw_data := PyDict metrics |}.

Definition environment_reading (from_id : pyval) (now : datetime)
    (lat lon : pyval) (env : gmap string pyval) : SensorReading :=
  {| sensor_id := from_id;
     timestamp := PyStr (isoformat now);
     latitude := lat;
     longitude := lon;
     altitude_m := PyNone;
     pm25_ugm3 := PyNone;
     pm10_ugm3 := PyNone;
     temperature_c := get env "temperature";
     relative_humidity_pct := get env "relativeHumidity";
     voltage := PyNone;
     battery_level := PyNone;
     air_util_tx := PyNone;
     uptime_seconds := PyNone;
     rssi := PyNone;
     snr := PyNone;
     raw_data := PyDict env |}.

Definition as_dict (v : pyval) : exn + gmap string pyval :=
  match v with PyDict d => inr d | _ => inl AttributeError end.

(** [process_telemetry]; each group has its own clock reading and, when
    its reading fills the batch, its own POST. *)
Definition process_telemetry (post_device post_environment : post_result)
    (now_device now_environment : datetime) (packet : gmap string pyval)
  : M reader unit :=
  try_except
    (decoded ← lift (match packet !! "decoded" with
                     | Some v => inr v
                     | None => inl KeyError
                     end);
     telemetry ← lift (getitem decoded "telemetry");
     let from_id := get_default packet "fromId" (PyStr "unknown") in
     lat ← gets default_lat;
     lon ← gets default_lon;
     has_device ← lift (contains "deviceMetrics" telemetry);
     (if (has_device : bool) then
        metrics ← lift (getitem telemetry "deviceMetrics");
        m ← lift (as_dict metrics);
        on_uploader
          (add_reading post_device
             (device_reading from_id now_device lat lon m packet))
      else mret tt);;
     has_environment ← lift (contains "environmentMetrics" telemetry);
     if (has_environment : bool) then
       env ← lift (getitem telemetry "environmentMetrics");
       e ← lift (as_dict env);
       on_uploader
         (add_reading post_environment
            (environment_reading from_id now_environment lat lon e))
     else mret tt)
    (fun _ => Some (mret tt)).

(** [on_receive]; [process_environmental] does nothing. *)
Definition on_receive (post_device post_environment : post_result)
    (now_device now_environment : datetime) (packet : gmap string pyval)
  : M reader unit :=
  try_except
    (match packet !! "decoded" with
     | None => mret tt
     | Some decoded =>
         portnum ← lift (getattr_get decoded "portnum");
         has_telemetry ←
           (if is_str "TELEMETRY_APP" portnum
            then lift (contains "telemetry" decoded)
            else mret false);
         if (has_telemetry : bool) then
           process_telemetry post_device post_environment
                             now_device now_environment packet
         else mret tt
     end)
    (fun _ => Some (mret tt)).

(** [SupabaseUploader.__init__]: the base address without its trailing
    slashes, nothing pending. *)
Definition init (base : string) : uploader :=
  Uploader (rstrip_slash base) [].

(** The dictionary that [upload_single] builds: the identity of the reading,
    its position, and the four sensor fields of the loop. *)
Definition single_payload_of (reading : SensorReading) : pyval :=
  let data : gmap string pyval :=
    list_to_map [ ("sensor_id", sensor_id reading);
                  ("timestamp", timestamp reading) ] in
  let data :=
    if negb (is_None (latitude reading)) && negb (is_None (longitude reading))
    then <["location" :=
             PyDict (list_to_map [ ("latitude", latitude reading);
                                   ("longitude", longitude reading) ])]> data
    else data in
  let data := set_if_present "pm25_ugm3" (pm25_ugm3 reading) data in
  let data := set_if_present "pm10_ugm3" (pm10_ugm3 reading) data in
  let data := set_if_present "temperature_c" (temperature_c reading) data in
  let data := set_if_present "relative_humidity_pct"
                (relative_humidity_pct reading) data in
  PyDict data.

(** [upload_single]: one POST of one reading, at once; the result says
    whether the answer was 200. *)
Definition upload_single (post : post_result) (reading : SensorReading)
  : M uploader bool :=
  try_except
    (let data := single_payload_of reading in
     base ← gets api_base;
     emit (CallPost (base ++ "/api/ingest/sensors") data 30);;
     match post with
     | Fails e => raise e
     | Responds r =>
         if Z.eqb (status_code r) 200 then mret true else mret false
     end)
    (fun _ => Some (mret false)).

End Uploader.

End Supabase.

(** ** The words of the specification, as definitions *)

Module Spec.

Import Normalizer.

(** The keys of every record of the pipeline. *)
Definition RECORD_KEYS : gset string :=
  list_to_set
    [ "sensor_id"; "timestamp"; "telemetry_type"; "location";
      "voltage"; "battery_level"; "air_util_tx"; "uptime_seconds";
      "channel_utilization";
      "temperature_c"; "relative_humidity_pct"; "barometric_pressure";
      "gas_resistance"; "iaq"; "wind_direction"; "wind_speed";
      "pm25_ugm3"; "pm10_ugm3"; "pm100_ugm3"; "pm1_ugm3";
      "ch3_voltage"; "ch3_current";
      "rssi"; "snr"; "hop_limit"; "hop_start"; "raw_data" ].

(** The field group of each record kind. *)
Definition group_fields (k : kind) : list string :=
  match k with
  | device =>
      [ "voltage"; "battery_level"; "air_util_tx"; "uptime_seconds";
        "channel_utilization" ]
  | environment =>
      [ "temperature_c"; "relative_humidity_pct"; "barometric_pressure";
        "gas_resistance"; "iaq"; "wind_direction"; "wind_speed" ]
  | air_quality =>
      [ "pm25_ugm3"; "pm10_ugm3"; "pm100_ugm3"; "pm1_ugm3" ]
  end.

(** "The standard reading when present, else the environmental reading,
    else absent." *)
Definition standard_when_present (m : gmap string pyval)
    (standard environmental : string) : pyval :=
  match m !! standard with
  | Some v => v
  | None =>
      match m !! environmental with
      | Some v => v
      | None => PyNone
      end
  end.

(** The same rule with "present" read as Python reads a value in a
    condition: the standard reading when it is there and true, else
    whatever [get] gives for the environmental one. *)
Definition standard_when_true (m : gmap string pyval)
    (standard environmental : string) : pyval :=
  match m !! standard with
  | Some v => if truthy v then v else get m environmental
  | None => get m environmental
  end.

(** Where each field of a group comes from in the metrics object. *)
Definition group_source (k : kind) (m : gmap string pyval)
  : list (string * pyval) :=
  match k with
  | device =>
      [ ("voltage", get m "voltage");
        ("battery_level", get m "batteryLevel");
        ("air_util_tx", get m "airUtilTx");
        ("uptime_seconds", get m "uptimeSeconds");
        ("channel_utilization", get m "channelUtilization") ]
  | environment =>
      [ ("temperature_c", get m "temperature");
        ("relative_humidity_pct", get m "relativeHumidity");
        ("barometric_pressure", get m "barometricPressure");
        ("gas_resistance", get m "gasResistance");
        ("iaq", get m "iaq");
        ("wind_direction", get m "windDirection");
        ("wind_speed", get m "windSpeed") ]
  | air_quality =>
      [ ("pm25_ugm3", standard_when_true m "pm25Standard" "pm25Environmental");
        ("pm10_ugm3", standard_when_true m "pm10Standard" "pm10Environmental");
        ("pm100_ugm3",
         standard_when_true m "pm100Standard" "pm100Environmental");
        ("pm1_ugm3", get m "pm10Standard") ]
  end.

(** "Success is any 2xx status." *)
Definition in_2xx (code : Z) : Prop := (200 ≤ code < 300)%Z.

(** The effects of a success on the uploader: the batch is not put back,
    the counter grows by the size of the batch, the time is recorded. *)
Definition success_effects {datetime} (now : datetime) (b : list pyval)
    (s s' : Meshtastic.uploader datetime) : Prop :=
  Meshtastic.upload_queue s' = Meshtastic.upload_queue s ∧
  Meshtastic.total_uploaded s'
    = (Meshtastic.total_uploaded s + Z.of_nat (length b))%Z ∧
  Meshtastic.last_upload s' = now.

(** The effects of a failure that re-queues: the batch is at the tail of
    the queue, the counter and the time of the last success stay. *)
Definition requeue_effects {datetime} (b : list pyval)
    (s s' : Meshtastic.uploader datetime) : Prop :=
  Meshtastic.upload_queue s' = (Meshtastic.upload_queue s ++ b)%list ∧
  Meshtastic.total_uploaded s' = Meshtastic.total_uploaded s ∧
  Meshtastic.last_upload s' = Meshtastic.last_upload s.

End Spec.

(** ** Vocabulary for the properties of the code *)

Module Summary.

Import Normalizer.

(** The key of each metrics group in a telemetry object. *)
Definition group_key (k : kind) : string :=
  match k with
  | device => "deviceMetrics"
  | environment => "environmentMetrics"
  | air_quality => "airQualityMetrics"
  end.

(** The records that one telemetry object gives: one for each metrics group
    that is there and is a dictionary, in the order device, environment,
    air quality. *)
Definition group_records {datetime} (isoformat : datetime -> string)
    (node_id : pyval) (telemetry packet : gmap string pyval) (ts : datetime)
  : list pyval :=
  flat_map
    (fun k =>
       match telemetry !! group_key k with
       | Some (PyDict m) => [normalize isoformat k node_id (PyDict m) packet ts]
       | _ => []
       end)
    [device; environment; air_quality].

(** The records that the POSTs of a trace carry, in the order of the calls. *)
Definition posted (evs : list event) : list pyval :=
  flat_map
    (fun e => match e with CallPost _ (PyList l) _ => l | _ => [] end) evs.

(** How many records [l[:n]] takes from a list of [len] records. *)
Definition slice_count (n : Z) (len : nat) : nat :=
  Nat.min len
    (if Z.leb 0 n then Z.to_nat n else Nat.sub len (Z.to_nat (Z.opp n))).

(** A string of [n] slashes. *)
Fixpoint slashes (n : nat) : string :=
  match n with
  | O => EmptyString
  | S n' => String (Ascii.ascii_of_nat 47) (slashes n')
  end.

(** The last character of a string. *)
Fixpoint last_char (s : string) : option Ascii.ascii :=
  match s with
  | EmptyString => None
  | String c EmptyString => Some c
  | String _ s' => last_char s'
  end.

(** The answers after which [SupabaseUploader.upload_batch] clears the
    pending readings: status 200 with a JSON object as body. *)
Definition clears (post : post_result) : bool :=
  match post with
  | Responds r =>
      Z.eqb (status_code r) 200
      && match json_body r with Some (PyDict _) => true | _ => false end
  | Fails _ => false
  end.

(** Whether a value is a dictionary. *)
Definition is_dict (v : pyval) : bool :=
  match v with PyDict _ => true | _ => false end.

(** Whether [_on_receive] hands a packet to the uploader: its [from] field
    is false or an integer (so that [hex] accepts it), and its [decoded]
    field, an empty dictionary when missing, is a dictionary whose
    [portnum] is the telemetry port. *)
Definition reaches_uploader (packet : gmap string pyval) : bool :=
  let from_node := get_default packet "from" (PyInt 0) in
  (negb (truthy from_node)
   || match from_node with PyInt _ | PyBool _ => true | _ => false end)
  && match get_default packet "decoded" (PyDict ∅) with
     | PyDict d => is_str "TELEMETRY_APP" (get d "portnum")
     | _ => false
     end.

(** The fields that [SupabaseUploader.upload_batch] sends only when they
    are set, with the value of each in a reading. *)
Definition optional_fields (reading : Supabase.SensorReading)
  : list (string * pyval) :=
  [ ("pm25_ugm3", Supabase.pm25_ugm3 reading);
    ("pm10_ugm3", Supabase.pm10_ugm3 reading);
    ("temperature_c", Supabase.temperature_c reading);
    ("relative_humidity_pct", Supabase.relative_humidity_pct reading);
    ("altitude_m", Supabase.altitude_m reading);
    ("voltage", Supabase.voltage reading);
    ("battery_level", Supabase.battery_level reading);
    ("air_util_tx", Supabase.air_util_tx reading);
    ("uptime_seconds", Supabase.uptime_seconds reading);
    ("rssi", Supabase.rssi reading);
    ("snr", Supabase.snr reading) ].



End Summary.

(** ** Sample inputs *)

Module Samples.

(** A clock that reads seconds and renders every instant alike. *)
Definition iso (t : Z) : string := "2025-06-01T12:00:00+00:00".

(** An air-quality reading whose standard PM2.5 value is zero. *)
Definition zero_standard : gmap string pyval :=
  list_to_map [ ("pm25Standard", PyInt 0); ("pm25Environmental", PyInt 7) ].

Definition device_metrics : gmap string pyval :=
  list_to_map [ ("batteryLevel", PyInt 80); ("voltage", PyInt 4) ].

Definition radio : gmap string pyval :=
  list_to_map [ ("rxRssi", PyInt (-90)); ("rxSnr", PyInt 6);
                ("hopLimit", PyInt 3) ].


(** Three records. *)
Definition A : pyval := PyStr "A".
Definition B : pyval := PyStr "B".
Definition C : pyval := PyStr "C".

Definition cfg (batch_size : Z) : Meshtastic.config :=
  Meshtastic.Config "https://db.example/" "" batch_size 30.

Definition ok (code : Z) : post_result :=
  Responds (Response code "" None).

(** The reader of [raspberry_pi_supabase_uploader.py] as [__init__] leaves
    it: nothing pending, the default position 37.4419, -122.1430. *)
Definition reader : Supabase.reader :=
  Supabase.Reader
    (Supabase.Uploader "http://localhost:3000" [])
    (PyFloat (S754_finite false 5269478965251355 (-47)))
    (PyFloat (S754_finite true 8595049520092414 (-46))).

(** A telemetry packet with the three metrics groups. *)
Definition environment_metrics : gmap string pyval :=
  list_to_map [ ("temperature", PyInt 21); ("relativeHumidity", PyInt 40) ].

Definition three_groups : gmap string pyval :=
  list_to_map [ ("deviceMetrics", PyDict device_metrics);
                ("environmentMetrics", PyDict environment_metrics);
                ("airQualityMetrics", PyDict zero_standard) ].

Definition decoded_of (telemetry : pyval) : gmap string pyval :=
  list_to_map [ ("portnum", PyStr "TELEMETRY_APP"); ("telemetry", telemetry) ].

Definition packet_of (telemetry : pyval) : gmap string pyval :=
  list_to_map [ ("fromId", PyStr "!a1b2"); ("from", PyInt 41394);
                ("rxRssi", PyInt (-90));
                ("decoded", PyDict (decoded_of telemetry)) ].

(** A telemetry object whose device metrics are a number. *)
Definition bad_device : gmap string pyval :=
  list_to_map [ ("deviceMetrics", PyInt 5);
                ("environmentMetrics", PyDict environment_metrics) ].

(** A text message: no telemetry in it. *)
Definition text_packet : gmap string pyval :=
  list_to_map [ ("fromId", PyStr "!a1b2"); ("from", PyInt 41394);
                ("decoded",
                 PyDict (list_to_map
                   [ ("portnum", PyStr "TEXT_MESSAGE_APP") ])) ].

(** A reading with a temperature and a voltage, and no position. *)
Definition warm_reading : Supabase.SensorReading :=
  Supabase.mkSensorReading (PyStr "!a1b2") (PyStr "2025-06-01T12:00:00+00:00")
    PyNone PyNone PyNone PyNone PyNone (PyInt 21) PyNone (PyInt 4) PyNone
    PyNone PyNone PyNone PyNone PyNone.

(** Air-quality readings whose only value is a zero standard reading. *)
Definition zero_pm25_only : gmap string pyval :=
  list_to_map [ ("pm25Standard", PyInt 0) ].

Definition zero_pm10_only : gmap string pyval :=
  list_to_map [ ("pm10Standard", PyInt 0) ].

(** Five queued records. *)
Definition five : list pyval := [A; B; C; A; B].

End Samples.

(** * Properties *)

(** ** The normalizer *)

Section NormalizerFacts.

Import Normalizer Spec.

Context {datetime : Type} (isoformat : datetime -> string).

Lemma or_standard_when_true (m : gmap string pyval) (s e : string) :
  or_ (get m s) (get m e) = standard_when_true m s e.
Proof.
  unfold or_, standard_when_true, get.
  destruct (m !! s) as [v|]; simpl; reflexivity.
Qed.

(** What the air-quality formatter computes: [pm25_ugm3], [pm10_ugm3] and
    [pm100_ugm3] hold the standard reading when that reading is there and
    true in the Python sense (not [None], zero, false or empty), else
    whatever the environmental key gives ([None] when it is missing);
    [pm1_ugm3] holds the value of [pm10Standard] ([None] when it is
    missing). *)
Lemma air_quality_pm_fields (node_id : pyval) (m packet : gmap string pyval)
    (ts : datetime) :
  let r := _format_air_quality_metrics datetime isoformat node_id (PyDict m)
                                       packet ts in
  field r "pm25_ugm3"
    = Some (standard_when_true m "pm25Standard" "pm25Environmental") ∧
  field r "pm10_ugm3"
    = Some (standard_when_true m "pm10Standard" "pm10Environmental") ∧
  field r "pm100_ugm3"
    = Some (standard_when_true m "pm100Standard" "pm100Environmental") ∧
  field r "pm1_ugm3" = Some (get m "pm10Standard").
Proof.
  intros r. subst r. rewrite <- !or_standard_when_true.
  repeat split; reflexivity.
Qed.

End NormalizerFacts.

(** The rule of the specification fails on a reading whose standard value
    is zero: the record holds the environmental value 7, not the standard
    value 0. *)
Lemma zero_standard_reading_is_skipped :
  Normalizer.field
    (Normalizer._format_air_quality_metrics Z Samples.iso (PyStr "!a1b2")
       (PyDict Samples.zero_standard) Samples.radio 0)
    "pm25_ugm3"
  = Some (PyInt 7)
  ∧ Spec.standard_when_present Samples.zero_standard
      "pm25Standard" "pm25Environmental" = PyInt 0
  ∧ Normalizer.field
      (Normalizer._format_air_quality_metrics Z Samples.iso (PyStr "!a1b2")
         (PyDict Samples.zero_standard) Samples.radio 0)
      "pm25_ugm3"
    ≠ Some (Spec.standard_when_present Samples.zero_standard
              "pm25Standard" "pm25Environmental").
Proof.
  split; [reflexivity | split; [reflexivity | ]].
  vm_compute. discriminate.
Qed.

(** C1 fails on the code: a standard reading that is present and zero is
    lost.  With [pm25Standard] 0 alone the record's [pm25_ugm3] is [None],
    where the rule gives the reading 0; with an environmental reading 7
    beside it the record holds 7; and of the two fields read from
    [pm10Standard], [pm1_ugm3], read without [or], keeps the 0 while
    [pm10_ugm3] loses it. *)
Lemma zero_standard_reading_is_lost :
  let record m :=
    Normalizer._format_air_quality_metrics Z Samples.iso (PyStr "!a1b2")
      (PyDict m) Samples.radio 0 in
  Spec.standard_when_present Samples.zero_pm25_only
    "pm25Standard" "pm25Environmental" = PyInt 0
  ∧ Normalizer.field (record Samples.zero_pm25_only) "pm25_ugm3" = Some PyNone
  ∧ Spec.standard_when_present Samples.zero_standard
      "pm25Standard" "pm25Environmental" = PyInt 0
  ∧ Normalizer.field (record Samples.zero_standard) "pm25_ugm3"
    = Some (PyInt 7)
  ∧ Normalizer.field (record Samples.zero_pm10_only) "pm1_ugm3"
    = Some (PyInt 0)
  ∧ Normalizer.field (record Samples.zero_pm10_only) "pm10_ugm3"
    = Some PyNone.
Proof. repeat split; vm_compute; reflexivity. Qed.

Section RecordShape.

Import Normalizer Spec.

Context {datetime : Type} (isoformat : datetime -> string).

Lemma normalize_not_dict (k : kind) (node_id v : pyval)
    (packet : gmap string pyval) (ts : datetime) :
  (∀ m, v ≠ PyDict m) → normalize isoformat k node_id v packet ts = PyNone.
Proof.
  intros Hv. destruct k, v; try reflexivity; exfalso; eapply Hv; reflexivity.
Qed.

Lemma normalize_keys (k : kind) (node_id : pyval)
    (m packet : gmap string pyval) (ts : datetime) :
  keys (normalize isoformat k node_id (PyDict m) packet ts) = RECORD_KEYS.
Proof.
  destruct k; unfold keys, normalize, _format_device_metrics,
    _format_environment_metrics, _format_air_quality_metrics, RECORD_KEYS;
    rewrite dom_list_to_map_L; reflexivity.
Qed.

Lemma normalize_own_group (k : kind) (node_id : pyval)
    (m packet : gmap string pyval) (ts : datetime) (f : string) (v : pyval) :
  (f, v) ∈ group_source k m →
  field (normalize isoformat k node_id (PyDict m) packet ts) f = Some v.
Proof.
  destruct k; unfold group_source; rewrite !elem_of_cons, elem_of_nil;
    rewrite <- ?or_standard_when_true;
    intros H; repeat (destruct H as [H|H]); try contradiction;
    injection H as -> ->; reflexivity.
Qed.

Lemma normalize_other_group (k k' : kind) (node_id : pyval)
    (m packet : gmap string pyval) (ts : datetime) (f : string) :
  k' ≠ k → f ∈ group_fields k' →
  field (normalize isoformat k node_id (PyDict m) packet ts) f = Some PyNone.
Proof.
  intros Hk.
  destruct k, k'; try congruence; unfold group_fields;
    rewrite !elem_of_cons, elem_of_nil;
    intros H; repeat (destruct H as [H|H]); try contradiction;
    subst f; reflexivity.
Qed.

(** C8: every record that a formatter produces has the same 27 keys;
    its [telemetry_type] names its kind; the fields of its own group hold
    what the metrics object gives; every field of the two other groups is
    there and holds [None].  A metrics value that is not a dictionary
    gives no record at all. *)
Theorem record_shape (k : kind) (node_id metrics : pyval)
    (packet : gmap string pyval) (ts : datetime) :
  let r := normalize isoformat k node_id metrics packet ts in
  match metrics with
  | PyDict m =>
      keys r = RECORD_KEYS ∧
      field r "telemetry_type" = Some (PyStr (kind_name k)) ∧
      map fst (group_source k m) = group_fields k ∧
      (∀ f v, (f, v) ∈ group_source k m → field r f = Some v) ∧
      (∀ k' f, k' ≠ k → f ∈ group_fields k' → field r f = Some PyNone)
  | _ => r = PyNone
  end.
Proof.
  intros r. subst r.
  destruct metrics as [| | | | | |m];
    try (apply normalize_not_dict; intros m; discriminate).
  split; [apply normalize_keys|].
  split; [destruct k; reflexivity|].
  split; [destruct k; reflexivity|].
  split.
  - intros f v. apply normalize_own_group.
  - intros k' f. apply normalize_other_group.
Qed.

End RecordShape.

(** ** Running computations *)

(** Unfold the operations of the monad, to run a computation on a state
    whose shape is known. *)
Ltac run_monad :=
  unfold Meshtastic.with_queue_lock, Meshtastic.acquire, Meshtastic.requeue,
    Meshtastic.enqueue, Meshtastic.deref,
    mbind, M_bind, mret, M_ret, bind, ret, gets, modify, emit, finally,
    try_except, block, raise, lift, zoom;
  simpl.

Section EffFacts.

Context {S : Type}.

Lemma bind_done {A B} (m : M S A) (k : A → M S B) (s s1 : S) (a : A)
    (evs : list event) :
  m s = Done a s1 evs → (m ≫= k) s = after evs (k a s1).
Proof. intros H. unfold mbind, M_bind, bind. rewrite H. reflexivity. Qed.


Lemma try_except_done {A} (m : M S A) (h : exn → option (M S A))
    (s s1 : S) (a : A) (evs : list event) :
  m s = Done a s1 evs → try_except m h s = Done a s1 evs.
Proof. intros H. unfold try_except. rewrite H. reflexivity. Qed.



Lemma final_after {A} (evs : list event) (o : outcome S A) :
  final (after evs o) = final o.
Proof. destruct o; reflexivity. Qed.

Lemma returns_after {A} (evs : list event) (o : outcome S A) :
  returns (after evs o) = returns o.
Proof. destruct o; reflexivity. Qed.

(** [time.sleep] on a length it accepts, and on one it refuses. *)
Lemma sleep_valid (seconds : Z) (s : S) :
  sleep_ok seconds = true → sleep seconds s = Done tt s [Sleep seconds].
Proof.
  unfold sleep_ok, sleep, MAX_SLEEP. intros H.
  apply andb_true_iff in H as [H1 H2]. apply Z.leb_le in H1, H2.
  destruct (Z.ltb_spec 9223372036 (Z.abs seconds)); [lia|].
  destruct (Z.ltb_spec seconds 0); [lia | reflexivity].
Qed.

Lemma sleep_refused (seconds : Z) (s : S) :
  sleep_ok seconds = false → ∃ e, sleep seconds s = Raised e s [].
Proof.
  unfold sleep_ok, sleep, MAX_SLEEP. intros H.
  destruct (Z.ltb_spec 9223372036 (Z.abs seconds));
    [exists OverflowError; reflexivity|].
  destruct (Z.ltb_spec seconds 0); [exists ValueError; reflexivity|].
  apply andb_false_iff in H as [H|H]; apply Z.leb_gt in H; lia.
Qed.

End EffFacts.

(** ** The upload queue and the batch uploader *)

Section UploaderFacts.

Import Meshtastic Spec.

Context {datetime : Type} (cfg : config).

Local Abbreviation uploader := (uploader datetime).
Local Abbreviation N := (UPLOAD_BATCH_SIZE cfg).
Local Abbreviation url := (upload_url cfg).

Lemma slice_to_nonneg {A} (n : Z) (l : list A) :
  (0 ≤ n)%Z → slice_to n l = take (Z.to_nat n) l.
Proof.
  intros H. unfold slice_to.
  destruct (Z.leb_spec 0 n); [reflexivity | lia].
Qed.

Lemma del_slice_to_nonneg {A} (n : Z) (l : list A) :
  (0 ≤ n)%Z → del_slice_to n l = drop (Z.to_nat n) l.
Proof.
  intros H. unfold del_slice_to.
  destruct (Z.leb_spec 0 n); [reflexivity | lia].
Qed.

Lemma take_min {A} (n : nat) (l : list A) :
  take (Nat.min (length l) n) l = take n l.
Proof.
  destruct (Nat.le_ge_cases n (length l)) as [H|H].
  - rewrite Nat.min_r by exact H. reflexivity.
  - rewrite Nat.min_l by exact H.
    rewrite !take_ge by lia. reflexivity.
Qed.

Lemma drop_min {A} (n : nat) (l : list A) :
  drop (Nat.min (length l) n) l = drop n l.
Proof.
  destruct (Nat.le_ge_cases n (length l)) as [H|H].
  - rewrite Nat.min_r by exact H. reflexivity.
  - rewrite Nat.min_l by exact H.
    rewrite !drop_ge by lia. reflexivity.
Qed.

(** What the locked block of the worker does when the lock is free. *)
Lemma drain_free (s : uploader) :
  queue_lock s = false →
  drain datetime cfg s =
    match upload_queue s with
    | [] => Done None s []
    | _ => Done (Some (slice_to N (upload_queue s)))
                (set_upload_queue datetime (del_slice_to N) s) []
    end.
Proof.
  destruct s as [q l r t n]. simpl. intros ->.
  destruct q; reflexivity.
Qed.

Lemma drain_nonempty (s : uploader) :
  queue_lock s = false → upload_queue s ≠ [] →
  drain datetime cfg s
  = Done (Some (slice_to N (upload_queue s)))
         (set_upload_queue datetime (del_slice_to N) s) [].
Proof.
  intros Hlock Hq. rewrite drain_free by exact Hlock.
  destruct (upload_queue s); [congruence | reflexivity].
Qed.




(** The three ends of [_upload_batch] on a batch that is not empty. *)
Lemma upload_batch_accepted (s : uploader) (b : list pyval)
    (post : post_result) (now : datetime) :
  b ≠ [] → accepted post = true →
  _upload_batch datetime cfg post now (Fresh b) s
  = Done tt
      (set_last_upload datetime now
         (set_total_uploaded datetime (fun n => n + Z.of_nat (length b)) s))
      [CallPost url (PyList b) 30].
Proof.
  intros Hb Hok. destruct b as [|x b]; [congruence|].
  destruct post as [r|e]; simpl in Hok; [|discriminate].
  unfold _upload_batch. cbn. rewrite Hok. reflexivity.
Qed.

Lemma upload_batch_rejected (s : uploader) (b : list pyval)
    (post : post_result) (now : datetime) :
  b ≠ [] → queue_lock s = false → rejected post = true →
  _upload_batch datetime cfg post now (Fresh b) s
  = Done tt (set_upload_queue datetime (fun q => (q ++ b)%list) s)
      [CallPost url (PyList b) 30].
Proof.
  intros Hb Hlock Hrej. destruct b as [|x b]; [congruence|].
  destruct s as [q l r t n]. simpl in Hlock. subst l.
  destruct post as [resp|e]; simpl in Hrej.
  - apply negb_true_iff in Hrej.
    unfold _upload_batch. cbn. rewrite Hrej. reflexivity.
  - destruct e; try discriminate. reflexivity.
Qed.

Lemma upload_batch_crashed (s : uploader) (b : list pyval)
    (e : exn) (now : datetime) :
  b ≠ [] → is_RequestException e = false →
  _upload_batch datetime cfg (Fails e) now (Fresh b) s
  = Done tt s [CallPost url (PyList b) 30].
Proof.
  intros Hb He. destruct b as [|x b]; [congruence|].
  destruct e; try discriminate; reflexivity.
Qed.

Lemma app_same_nil {A} (q b : list A) : (q ++ b)%list = q → b = [].
Proof.
  intros H. apply (f_equal length) in H. rewrite length_app in H.
  destruct b; [reflexivity | simpl in H; lia].
Qed.

(** C4, as the code has it: for every response to the POST of a batch
    that is not empty, the upload is treated as a success exactly when the
    status code is 200 or 201; with any other status code, the other codes
    of the 2xx range included, the batch is put back at the tail of the
    queue and the counter and the time of the last success stay. *)
Theorem success_iff_200_or_201 (s : uploader) (b : list pyval)
    (r : response) (now : datetime) :
  b ≠ [] → queue_lock s = false →
  ∃ s', _upload_batch datetime cfg (Responds r) now (Fresh b) s
          = Done tt s' [CallPost url (PyList b) 30]
        ∧ (success_effects now b s s'
           ↔ status_code r = 200%Z ∨ status_code r = 201%Z)
        ∧ (¬ (status_code r = 200%Z ∨ status_code r = 201%Z)
           → requeue_effects b s s').
Proof.
  intros Hb Hlock.
  destruct (status_ok (status_code r)) eqn:Hok.
  - eexists. split; [apply upload_batch_accepted; assumption|].
    assert (Hcode : status_code r = 200%Z ∨ status_code r = 201%Z).
    { unfold status_ok in Hok. apply orb_true_iff in Hok.
      destruct Hok as [H|H]; apply Z.eqb_eq in H; tauto. }
    split; [|tauto].
    split; [intros _; exact Hcode|].
    intros _. destruct s; repeat split.
  - eexists. split.
    { apply upload_batch_rejected; [assumption..|]. simpl. rewrite Hok.
      reflexivity. }
    assert (Hcode : ¬ (status_code r = 200%Z ∨ status_code r = 201%Z)).
    { unfold status_ok in Hok. apply orb_false_iff in Hok.
      destruct Hok as [H1 H2]. apply Z.eqb_neq in H1, H2. tauto. }
    split.
    + split; [|tauto].
      intros (Hq & _ & _). destruct s; simpl in Hq.
      apply app_same_nil in Hq. contradiction.
    + intros _. destruct s; repeat split.
Qed.


(** One turn of the worker on a queue that is not empty, with a flush
    interval that [time.sleep] accepts: the sleep, the drain, then what
    [_upload_batch] does with the drained batch. *)
Lemma turn_step (s s' : uploader) (post : post_result) (now : datetime)
    (evs : list event) :
  queue_lock s = false → upload_queue s ≠ [] → (0 < N)%Z →
  sleep_ok (UPLOAD_INTERVAL_SEC cfg) = true →
  _upload_batch datetime cfg post now
    (Fresh (take (Z.to_nat N) (upload_queue s)))
    (set_upload_queue datetime (drop (Z.to_nat N)) s) = Done tt s' evs →
  _upload_worker_turn datetime cfg post now s
  = Done tt s' (Sleep (UPLOAD_INTERVAL_SEC cfg) :: evs).
Proof.
  intros Hlock Hq HN Hsleep Hbatch.
  unfold _upload_worker_turn. apply try_except_done.
  erewrite bind_done by (apply sleep_valid; exact Hsleep).
  erewrite bind_done by (apply drain_nonempty; assumption).
  rewrite slice_to_nonneg by lia.
  assert (Hd : set_upload_queue datetime (del_slice_to N) s
               = set_upload_queue datetime (drop (Z.to_nat N)) s).
  { unfold set_upload_queue. rewrite del_slice_to_nonneg by lia.
    reflexivity. }
  rewrite Hd.
  assert (Ht : truthy (PyList (take (Z.to_nat N) (upload_queue s))) = true).
  { destruct (upload_queue s); [congruence|].
    destruct (Z.to_nat N) eqn:E; [lia | reflexivity]. }
  rewrite Ht, Hbatch. reflexivity.
Qed.


Lemma take_nonempty {A} (n : nat) (l : list A) :
  l ≠ [] → (0 < n)%nat → take n l ≠ [].
Proof. intros Hl Hn. destruct l, n; simpl; [congruence | congruence | lia | discriminate]. Qed.

(** The two failure paths that re-queue do what is expected of a failed
    upload: a turn of the worker drains a batch of [k] records; when its
    upload is rejected (a status other than 200 and 201, or a transport
    error) the batch goes back to the queue, whose length grows by exactly
    [k] over what the drain left, and the counter stays; the next turn
    drains [k] records again (the same batch when nothing else was
    queued), and when that upload is accepted the queue is shorter by [k]
    again and the counter has grown by [k], once. *)
Lemma rejected_then_accepted_upload (s0 : uploader)
    (post1 post2 : post_result) (now1 now2 : datetime) :
  queue_lock s0 = false → upload_queue s0 ≠ [] → (0 < N)%Z →
  sleep_ok (UPLOAD_INTERVAL_SEC cfg) = true →
  rejected post1 = true → accepted post2 = true →
  let q := upload_queue s0 in
  let k := Nat.min (length q) (Z.to_nat N) in
  let b := take k q in
  let rest := drop k q in
  ∃ s1 s2 b2,
    _upload_worker_turn datetime cfg post1 now1 s0
      = Done tt s1 [Sleep (UPLOAD_INTERVAL_SEC cfg); CallPost url (PyList b) 30]
    ∧ upload_queue s1 = (rest ++ b)%list
    ∧ length (upload_queue s1) = (length rest + k)%nat
    ∧ total_uploaded s1 = total_uploaded s0
    ∧ _upload_worker_turn datetime cfg post2 now2 s1
      = Done tt s2 [Sleep (UPLOAD_INTERVAL_SEC cfg); CallPost url (PyList b2) 30]
    ∧ length b2 = k
    ∧ (rest = [] → b2 = b)
    ∧ length (upload_queue s2) = length rest
    ∧ total_uploaded s2 = (total_uploaded s0 + Z.of_nat k)%Z.
Proof.
  intros Hlock Hq HN Hsleep Hrej Hacc q k b rest. subst b rest k.
  rewrite take_min, drop_min. subst q.
  set (n := Z.to_nat N). assert (Hn : (0 < n)%nat) by (subst n; lia).
  set (q := upload_queue s0) in *.
  set (s1 := set_upload_queue datetime (fun r => (r ++ take n q)%list)
               (set_upload_queue datetime (drop n) s0)).
  assert (Hq1 : upload_queue s1 = (drop n q ++ take n q)%list)
    by (destruct s0; reflexivity).
  assert (Hlen : length (drop n q ++ take n q) = length q).
  { rewrite length_app, length_drop, length_take. lia. }
  assert (Hq1ne : upload_queue s1 ≠ []).
  { rewrite Hq1. intros H. apply (f_equal length) in H.
    rewrite Hlen in H. destruct q; [congruence | discriminate]. }
  set (b2 := take n (upload_queue s1)).
  exists s1,
    (set_last_upload datetime now2
       (set_total_uploaded datetime (fun c => (c + Z.of_nat (length b2))%Z)
          (set_upload_queue datetime (drop n) s1))),
    b2.
  assert (Hb2 : length b2 = Nat.min (length q) n).
  { subst b2. rewrite Hq1, length_take, Hlen. lia. }
  split.
  { apply turn_step; [assumption..|].
    apply upload_batch_rejected;
      [apply take_nonempty; assumption | destruct s0; assumption | assumption]. }
  split; [exact Hq1|].
  split; [rewrite Hq1, length_app, length_take; lia|].
  split; [destruct s0; reflexivity|].
  split.
  { apply turn_step;
      [destruct s0; assumption | assumption | assumption | assumption |].
    apply upload_batch_accepted;
      [apply take_nonempty; assumption | assumption]. }
  split; [exact Hb2|].
  split.
  { intros Hrest. subst b2. rewrite Hq1, Hrest. simpl.
    rewrite take_take. f_equal. lia. }
  split.
  { transitivity (length (drop n (upload_queue s1))); [reflexivity|].
    rewrite Hq1, !length_drop, Hlen. reflexivity. }
  rewrite <- Hb2. destruct s0; reflexivity.
Qed.


(** [shutdown] on a free lock and a queue that is not empty: one POST of
    the whole queue, then either the clearing of the queue and the join,
    or, when the POST is rejected, the lock taken a second time. *)
Lemma shutdown_run (s : uploader) (post : post_result) (now : datetime)
    (alive : bool) :
  queue_lock s = false → upload_queue s ≠ [] →
  shutdown datetime cfg post now alive s
  = if rejected post
    then Blocked (set_queue_lock datetime true (set_running datetime false s))
                 [CallPost url (PyList (upload_queue s)) 30]
    else Done tt
           (set_upload_queue datetime (fun _ => [])
              (if accepted post
               then set_last_upload datetime now
                      (set_total_uploaded datetime
                         (fun c => (c + Z.of_nat (length (upload_queue s)))%Z)
                         (set_running datetime false s))
               else set_running datetime false s))
           (CallPost url (PyList (upload_queue s)) 30
              :: if alive then [Join 10] else []).
Proof.
  destruct s as [q l r t n]. simpl. intros -> Hq.
  destruct q as [|x q]; [congruence|].
  destruct post as [resp|e].
  - unfold rejected, accepted, shutdown, _upload_batch. run_monad.
    destruct (status_ok (status_code resp)); destruct alive; reflexivity.
  - destruct e, alive; reflexivity.
Qed.

Lemma shutdown_empty (s : uploader) (post : post_result) (now : datetime)
    (alive : bool) :
  queue_lock s = false → upload_queue s = [] →
  shutdown datetime cfg post now alive s
  = Done tt (set_running datetime false s) (if alive then [Join 10] else []).
Proof.
  destruct s as [q l r t n]. simpl. intros -> ->. destruct alive; reflexivity.
Qed.

(** Whenever [shutdown] returns, the queue is empty. *)
Lemma shutdown_returned_empty (s s' : uploader) (post : post_result)
    (now : datetime) (alive : bool) (evs : list event) :
  queue_lock s = false →
  shutdown datetime cfg post now alive s = Done tt s' evs →
  upload_queue s' = [].
Proof.
  intros Hlock.
  destruct (upload_queue s) as [|x q] eqn:Hq.
  - rewrite shutdown_empty by assumption. intros [= <- _].
    destruct s; exact Hq.
  - rewrite shutdown_run by (rewrite ?Hq; first [assumption | discriminate]).
    destruct (rejected post); [discriminate|].
    intros [= <- _]. destruct (accepted post), s; reflexivity.
Qed.


Lemma stop_run (r : receiver) :
  stop r
  = Done tt (Receiver (interface r) false (packets_received r)
                      (telemetry_packets r))
      (if interface r then [Unsubscribe; CloseInterface] else []).
Proof. destruct r as [[] rr pr tp]; reflexivity. Qed.

Lemma signal_handler_run (a : app datetime) (post : post_result)
    (now : datetime) (alive : bool) :
  signal_handler datetime cfg post now alive a
  = after (if interface (the_receiver a)
           then [Unsubscribe; CloseInterface] else [])
      (match shutdown datetime cfg post now alive (the_uploader a) with
       | Done _ u evs =>
           Done tt
             (App (Receiver (interface (the_receiver a)) false
                            (packets_received (the_receiver a))
                            (telemetry_packets (the_receiver a))) u)
             (evs ++ [Exit 0])
       | Raised e u evs =>
           Raised e
             (App (Receiver (interface (the_receiver a)) false
                            (packets_received (the_receiver a))
                            (telemetry_packets (the_receiver a))) u)
             evs
       | Blocked u evs =>
           Blocked
             (App (Receiver (interface (the_receiver a)) false
                            (packets_received (the_receiver a))
                            (telemetry_packets (the_receiver a))) u)
             evs
       end).
Proof.
  destruct a as [r u]. unfold signal_handler, on_receiver, on_uploader.
  erewrite bind_done
    by (unfold zoom; simpl; rewrite stop_run; reflexivity).
  f_equal. unfold mbind, M_bind, bind, zoom. simpl.
  destruct (shutdown datetime cfg post now alive u); reflexivity.
Qed.

(** The part of the final flush that holds: on a signal, with the lock
    free and records in the queue, the handler makes exactly one POST, whose
    body is the whole queue whatever the batch size, with the timeout of 30
    seconds; the exit of the process never comes before that call; and when
    the POST is accepted, the exit is the last thing the handler does. *)
Lemma final_flush_is_one_post (a : app datetime) (post : post_result)
    (now : datetime) (alive : bool) :
  queue_lock (the_uploader a) = false →
  upload_queue (the_uploader a) ≠ [] →
  let o := signal_handler datetime cfg post now alive a in
  let flush := CallPost url (PyList (upload_queue (the_uploader a))) 30 in
  filter (λ e, is_CallPost e = true) (events o) = [flush]
  ∧ (∀ i, events o !! i = Some (Exit 0) →
          ∃ j, (j < i)%nat ∧ events o !! j = Some flush)
  ∧ (accepted post = true → last (events o) = Some (Exit 0)).
Proof.
  intros Hlock Hq o flush. subst o flush.
  rewrite signal_handler_run, shutdown_run by assumption.
  destruct (rejected post) eqn:Hrej.
  - assert (Hacc : accepted post = false).
    { destruct post as [r|e]; simpl in *; [|reflexivity].
      apply negb_true_iff in Hrej. exact Hrej. }
    rewrite Hacc.
    destruct (interface (the_receiver a)); simpl;
      (split; [reflexivity|]); (split; [|discriminate]);
      intros i H;
      do 4 (try (destruct i as [|i]; simpl in H; try discriminate H)).
  - destruct (interface (the_receiver a)), alive; simpl;
      (split; [reflexivity|]); (split; [|reflexivity]);
      intros i H;
      do 6 (try (destruct i as [|i]; simpl in H; try discriminate H));
      first [ exists 0%nat; split; [lia | reflexivity]
            | exists 2%nat; split; [lia | reflexivity] ].
Qed.

End UploaderFacts.

(** ** The scenario of three records *)

Section Scenario.

Import Meshtastic.

Context {datetime : Type}.


End Scenario.

(** ** Runs on the sample inputs *)


(** C2 fails on the code: when the POST raises an exception that is not a
    [RequestException], the drained batch [A, B] is neither counted as
    uploaded nor put back: the queue stays empty. *)
Lemma unexpected_error_drops_batch :
  let cfg := Samples.cfg 2 in
  let s2 := final ((Meshtastic.enqueue Z Samples.A;;
                    Meshtastic.enqueue Z Samples.B) (Meshtastic.init Z 0)) in
  let turn := Meshtastic._upload_worker_turn Z cfg (Fails TypeError) 1 s2 in
  Meshtastic.upload_queue s2 = [Samples.A; Samples.B]
  ∧ turn = Done tt (Meshtastic.init Z 0)
             [Sleep 30;
              CallPost "https://db.example/rest/v1/meshtastic_telemetry"
                (PyList [Samples.A; Samples.B]) 30]
  ∧ Meshtastic.upload_queue (final turn) = []
  ∧ Meshtastic.total_uploaded (final turn) = 0%Z.
Proof. repeat split; reflexivity. Qed.

(** C4, as the specification words it, fails on status 204: the code is
    in the 2xx range, yet the batch is put back and nothing is counted. *)
Lemma status_204_is_requeued :
  let s' := final (Meshtastic._upload_batch Z (Samples.cfg 2) (Samples.ok 204)
                     5 (Meshtastic.Fresh [Samples.A]) (Meshtastic.init Z 0)) in
  Spec.in_2xx 204
  ∧ Meshtastic.upload_queue s' = [Samples.A]
  ∧ Meshtastic.total_uploaded s' = 0%Z
  ∧ ¬ Spec.success_effects 5%Z [Samples.A] (Meshtastic.init Z 0) s'.
Proof.
  split; [unfold Spec.in_2xx; lia|].
  split; [reflexivity|]. split; [reflexivity|].
  intros (Hq & _). vm_compute in Hq. discriminate.
Qed.

(** C10 fails on the code: with one record queued and a final POST that
    answers 500, [shutdown] does not return: it blocks on the lock that it
    holds, with the record still in the queue. *)
Lemma shutdown_blocks_on_rejected_flush :
  let s := final (Meshtastic.enqueue Z Samples.A (Meshtastic.init Z 0)) in
  let o := Meshtastic.shutdown Z (Samples.cfg 2) (Samples.ok 500) 1 true s in
  o = Blocked (Meshtastic.Uploader [Samples.A] true false 0%Z 0%Z)
        [CallPost "https://db.example/rest/v1/meshtastic_telemetry"
           (PyList [Samples.A]) 30]
  ∧ returns o = false
  ∧ Meshtastic.upload_queue (final o) = [Samples.A].
Proof. repeat split; reflexivity. Qed.

(** C5 fails on the code: with A, B, C queued and batch size 2, a turn
    whose POST raises an exception that is not a [RequestException] drains
    the batch [A, B] of two records and does not put it back: the queue
    holds the one record that the drain left, not three; the next turn,
    accepted, uploads [C] alone, and the counter ends at 1 with A and B
    neither queued nor counted. *)
Lemma crashed_upload_is_not_requeued :
  let cfg := Samples.cfg 2 in
  let s0 := Meshtastic.Uploader [Samples.A; Samples.B; Samples.C] false true
              0%Z 0%Z in
  let drained := Meshtastic.drain Z cfg s0 in
  let turn1 := Meshtastic._upload_worker_turn Z cfg (Fails TypeError) 1 s0 in
  let turn2 := Meshtastic._upload_worker_turn Z cfg (Samples.ok 200) 2
                 (final turn1) in
  drained = Done (Some [Samples.A; Samples.B])
              (Meshtastic.Uploader [Samples.C] false true 0%Z 0%Z) []
  ∧ turn1 = Done tt (Meshtastic.Uploader [Samples.C] false true 0%Z 0%Z)
              [Sleep 30;
               CallPost "https://db.example/rest/v1/meshtastic_telemetry"
                 (PyList [Samples.A; Samples.B]) 30]
  ∧ length (Meshtastic.upload_queue (final turn1))
    ≠ (length (Meshtastic.upload_queue (final drained)) + 2)%nat
  ∧ turn2 = Done tt (Meshtastic.Uploader [] false true 2%Z 1%Z)
              [Sleep 30;
               CallPost "https://db.example/rest/v1/meshtastic_telemetry"
                 (PyList [Samples.C]) 30]
  ∧ Meshtastic.total_uploaded (final turn2) = 1%Z.
Proof. repeat split; try reflexivity. vm_compute. discriminate. Qed.


(** C7 fails on the code: with five records queued, batch size 2 and a
    final POST that times out, the handler makes the one POST of the five
    records and then waits for ever for the lock that [shutdown] holds: it
    does not return and the exit of the process is never reached. *)
Lemma signal_handler_hangs_after_timeout :
  let a := Meshtastic.App (Meshtastic.Receiver true true 7 3)
             (Meshtastic.Uploader Samples.five false true 0%Z 0%Z) in
  let o := Meshtastic.signal_handler Z (Samples.cfg 2)
             (Fails RequestException) 9%Z true a in
  o = Blocked
        (Meshtastic.App (Meshtastic.Receiver true false 7 3)
           (Meshtastic.Uploader Samples.five true false 0%Z 0%Z))
        [Unsubscribe; CloseInterface;
         CallPost "https://db.example/rest/v1/meshtastic_telemetry"
           (PyList Samples.five) 30]
  ∧ filter (λ e, is_CallPost e = true) (events o)
    = [CallPost "https://db.example/rest/v1/meshtastic_telemetry"
         (PyList Samples.five) 30]
  ∧ returns o = false
  ∧ Exit 0 ∉ events o.
Proof.
  repeat split; try reflexivity.
  intros H. vm_compute in H.
  repeat (apply elem_of_cons in H as [H|H]; [discriminate H|]).
  apply elem_of_nil in H. exact H.
Qed.

(** ** The enqueue paths and the network *)

Section Silence.

Context {S : Type}.











End Silence.


Section MeshtasticEnqueue.

Import Meshtastic.

Context {datetime : Type} (isoformat : datetime → string).





End MeshtasticEnqueue.

Section SupabaseEnqueue.

Import Supabase.

Context (BATCH_SIZE : Z).



End SupabaseEnqueue.

(** ** The theorems at work on the sample inputs *)


(** A response 201 to the POST of one record. *)
Lemma success_iff_200_or_201_witness :
  let s := Meshtastic.init Z 0 in
  [Samples.A] ≠ [] ∧ Meshtastic.queue_lock s = false
  ∧ ∃ s', Meshtastic._upload_batch Z (Samples.cfg 2) (Samples.ok 201) 5%Z
            (Meshtastic.Fresh [Samples.A]) s
          = Done tt s'
              [CallPost (Meshtastic.upload_url (Samples.cfg 2))
                 (PyList [Samples.A]) 30]
        ∧ (Spec.success_effects 5%Z [Samples.A] s s'
           ↔ 201%Z = 200%Z ∨ 201%Z = 201%Z).
Proof.
  intros s. split; [discriminate|]. split; [reflexivity|].
  destruct (success_iff_200_or_201 (Samples.cfg 2) s [Samples.A]
              (Response 201 "" None) 5%Z ltac:(discriminate) eq_refl)
    as (s' & Hrun & Hiff & _).
  exists s'. split; [exact Hrun | exact Hiff].
Defined.

(** A turn answered 503, then a turn answered 201, on three records. *)
Lemma rejected_then_accepted_upload_witness :
  let s0 := Meshtastic.Uploader [Samples.A; Samples.B; Samples.C] false true
              0%Z 0%Z in
  Meshtastic.queue_lock s0 = false ∧ Meshtastic.upload_queue s0 ≠ []
  ∧ (0 < 2)%Z
  ∧ sleep_ok 30 = true
  ∧ Meshtastic.rejected (Samples.ok 503) = true
  ∧ Meshtastic.accepted (Samples.ok 201) = true
  ∧ ∃ s1 s2 evs1 evs2,
      Meshtastic._upload_worker_turn Z (Samples.cfg 2) (Samples.ok 503) 1%Z s0
        = Done tt s1 evs1
      ∧ length (Meshtastic.upload_queue s1) = 3%nat
      ∧ Meshtastic.total_uploaded s1 = 0%Z
      ∧ Meshtastic._upload_worker_turn Z (Samples.cfg 2) (Samples.ok 201) 2%Z s1
        = Done tt s2 evs2
      ∧ length (Meshtastic.upload_queue s2) = 1%nat
      ∧ Meshtastic.total_uploaded s2 = 2%Z.
Proof.
  intros s0. split; [reflexivity|]. split; [discriminate|].
  split; [lia|]. split; [reflexivity|]. split; [reflexivity|].
  split; [reflexivity|].
  destruct (rejected_then_accepted_upload (Samples.cfg 2) s0
              (Samples.ok 503) (Samples.ok 201) 1%Z 2%Z
              eq_refl ltac:(discriminate) ltac:(simpl; lia) eq_refl
              eq_refl eq_refl)
    as (s1 & s2 & b2 & H1 & _ & Hlen1 & Htot1 & H2 & _ & _ & Hlen2 & Htot2).
  exists s1, s2. do 2 eexists.
  split; [exact H1|]. split; [exact Hlen1|]. split; [exact Htot1|].
  split; [exact H2|]. split; [exact Hlen2 | exact Htot2].
Defined.


(** A signal with five records queued and a batch size of two. *)
Lemma final_flush_is_one_post_witness :
  let five := [Samples.A; Samples.B; Samples.C; Samples.A; Samples.B] in
  let a := Meshtastic.App (Meshtastic.Receiver true true 7 3)
             (Meshtastic.Uploader five false true 0%Z 0%Z) in
  Meshtastic.queue_lock (Meshtastic.the_uploader a) = false
  ∧ Meshtastic.upload_queue (Meshtastic.the_uploader a) ≠ []
  ∧ filter (λ e, is_CallPost e = true)
      (events (Meshtastic.signal_handler Z (Samples.cfg 2) (Samples.ok 200)
                 9%Z true a))
    = [CallPost "https://db.example/rest/v1/meshtastic_telemetry"
         (PyList five) 30].
Proof.
  intros five a. split; [reflexivity|]. split; [discriminate|].
  destruct (final_flush_is_one_post (Samples.cfg 2) a (Samples.ok 200) 9%Z true
              eq_refl ltac:(discriminate)) as (Hposts & _).
  exact Hposts.
Defined.

(** A device record: its battery level comes from the metrics, its PM2.5
    field is there and holds [None]. *)
Lemma record_shape_witness :
  let r := Normalizer.normalize Samples.iso Normalizer.device (PyStr "!a1b2")
             (PyDict Samples.device_metrics) Samples.radio 0%Z in
  Normalizer.keys r = Spec.RECORD_KEYS
  ∧ Normalizer.field r "battery_level" = Some (PyInt 80)
  ∧ Normalizer.field r "pm25_ugm3" = Some PyNone.
Proof.
  intros r.
  destruct (record_shape Samples.iso Normalizer.device (PyStr "!a1b2")
              (PyDict Samples.device_metrics) Samples.radio 0%Z)
    as (Hkeys & _ & _ & Hown & Hother).
  split; [exact Hkeys|]. split.
  - apply Hown. right. left.
  - apply (Hother Normalizer.air_quality); [discriminate | left].
Defined.

(** * More of the code *)

(** ** [add_telemetry] and [_on_receive] *)

Section ReceivingFacts.

Import Meshtastic Normalizer Spec Summary.

Context {datetime : Type} (isoformat : datetime → string).

Local Abbreviation uploader := (uploader datetime).
Local Abbreviation append_to s recs :=
  (set_upload_queue datetime (λ q, (q ++ recs)%list) s).

Lemma bind_raised {S A B} (m : M S A) (k : A → M S B) (s s1 : S) (e : exn)
    (evs : list event) :
  m s = Raised e s1 evs → (m ≫= k) s = Raised e s1 evs.
Proof. intros H. unfold mbind, M_bind, bind. rewrite H. reflexivity. Qed.

Lemma try_except_raised {S A} (m : M S A) (h : exn → option (M S A))
    (h' : M S A) (s s1 : S) (e : exn) (evs : list event) :
  m s = Raised e s1 evs → h e = Some h' →
  try_except m h s = after evs (h' s1).
Proof. intros H He. unfold try_except. rewrite H, He. reflexivity. Qed.

Lemma try_except_ext {S A} (m m' : M S A) (h : exn → option (M S A)) (s : S) :
  m s = m' s → try_except m h s = try_except m' h s.
Proof. intros H. unfold try_except. rewrite H. reflexivity. Qed.

Lemma after_nil {S A} (o : outcome S A) : after [] o = o.
Proof. destruct o; reflexivity. Qed.

Lemma append_nil (s : uploader) : append_to s [] = s.
Proof. destruct s. unfold set_upload_queue. simpl. rewrite app_nil_r. reflexivity. Qed.

Lemma append_append (s : uploader) (a b : list pyval) :
  append_to (append_to s a) b = append_to s (a ++ b)%list.
Proof. destruct s. unfold set_upload_queue. simpl. rewrite app_assoc. reflexivity. Qed.

Lemma append_lock (s : uploader) (a : list pyval) :
  queue_lock (append_to s a) = queue_lock s.
Proof. destruct s. reflexivity. Qed.

Lemma enqueue_run (s : uploader) (r : pyval) :
  queue_lock s = false → enqueue datetime r s = Done tt (append_to s [r]) [].
Proof. destruct s as [q l rn t n]. simpl. intros ->. reflexivity. Qed.

Lemma normalize_truthy (k : kind) (node_id v : pyval)
    (packet : gmap string pyval) (ts : datetime) :
  truthy (normalize isoformat k node_id v packet ts) = is_dict v.
Proof. destruct k, v; reflexivity. Qed.

(** One group on a telemetry object that is a dictionary: the record of the
    group is appended when the group is there and is a dictionary. *)
Lemma add_group_dict (k : kind) (node_id : pyval)
    (t packet : gmap string pyval) (ts : datetime) (s : uploader) :
  queue_lock s = false →
  add_group datetime (group_key k) (normalize isoformat k) node_id (PyDict t)
    packet ts s
  = Done tt
      (append_to s
         match t !! group_key k with
         | Some (PyDict m) =>
             [normalize isoformat k node_id (PyDict m) packet ts]
         | _ => []
         end) [].
Proof.
  intros Hlock. unfold add_group. simpl contains. simpl getitem.
  destruct (t !! group_key k) as [v|] eqn:Hv.
  - erewrite bind_done
      by (rewrite bool_decide_eq_true_2 by eauto; reflexivity).
    cbn [after List.app].
    erewrite bind_done by reflexivity. cbn [after List.app].
    cbv zeta. rewrite normalize_truthy.
    destruct v; cbn [is_dict];
      first [ rewrite append_nil; reflexivity
            | rewrite enqueue_run by exact Hlock; reflexivity ].
  - erewrite bind_done
      by (rewrite bool_decide_eq_false_2 by (intros [? ?]; discriminate);
          reflexivity).
    rewrite append_nil. reflexivity.
Qed.

(** One group on a telemetry value that is not a dictionary: nothing
    changes, whether the membership test or the subscript raises or not. *)
Lemma add_group_not_dict (key : string)
    (format : pyval → pyval → gmap string pyval → datetime → pyval)
    (node_id telemetry : pyval) (packet : gmap string pyval) (ts : datetime)
    (s : uploader) :
  is_dict telemetry = false →
  add_group datetime key format node_id telemetry packet ts s = Done tt s []
  ∨ ∃ e, add_group datetime key format node_id telemetry packet ts s
         = Raised e s [].
Proof.
  intros Hd. unfold add_group.
  destruct telemetry as [| | | |str|l|t]; try discriminate Hd.
  1-4: right; eexists; reflexivity.
  - simpl contains.
    destruct (bool_decide (is_Some (String.index 0 key str)));
      [right; eexists; reflexivity | left; reflexivity].
  - simpl contains. destruct (existsb (is_str key) l);
      [right; eexists; reflexivity | left; reflexivity].
Qed.

Local Abbreviation three_groups node_id telemetry packet ts :=
  (add_group datetime (group_key device) (normalize isoformat device)
     node_id telemetry packet ts;;
   add_group datetime (group_key environment) (normalize isoformat environment)
     node_id telemetry packet ts;;
   add_group datetime (group_key air_quality) (normalize isoformat air_quality)
     node_id telemetry packet ts).

Lemma three_groups_dict (node_id : pyval) (t packet : gmap string pyval)
    (ts : datetime) (s : uploader) :
  queue_lock s = false →
  three_groups node_id (PyDict t) packet ts s
  = Done tt (append_to s (group_records isoformat node_id t packet ts)) [].
Proof.
  intros Hlock.
  erewrite bind_done by (apply add_group_dict; exact Hlock).
  erewrite bind_done
    by (apply add_group_dict; rewrite append_lock; exact Hlock).
  rewrite add_group_dict by (rewrite !append_lock; exact Hlock).
  cbn [after List.app]. rewrite !append_append.
  unfold group_records. cbn [flat_map List.app].
  rewrite app_nil_r, app_assoc. reflexivity.
Qed.

Lemma three_groups_not_dict (node_id telemetry : pyval)
    (packet : gmap string pyval) (ts : datetime) (s : uploader) :
  is_dict telemetry = false →
  three_groups node_id telemetry packet ts s = Done tt s []
  ∨ ∃ e, three_groups node_id telemetry packet ts s = Raised e s [].
Proof.
  intros Hd.
  destruct (add_group_not_dict (group_key device) (normalize isoformat device)
              node_id telemetry packet ts s Hd) as [H1|[e H1]];
    [|right; exists e; apply bind_raised; exact H1].
  erewrite bind_done by exact H1. cbn [after List.app].
  destruct (add_group_not_dict (group_key environment)
              (normalize isoformat environment)
              node_id telemetry packet ts s Hd) as [H2|[e H2]];
    [|right; exists e; erewrite bind_raised by exact H2; reflexivity].
  erewrite bind_done by exact H2. cbn [after List.app].
  destruct (add_group_not_dict (group_key air_quality)
              (normalize isoformat air_quality)
              node_id telemetry packet ts s Hd) as [H3|[e H3]];
    [left | right; exists e]; rewrite H3; reflexivity.
Qed.

(** The telemetry object of a packet, when the packet has one that is a
    dictionary inside a [decoded] dictionary. *)
Lemma add_telemetry_body (now : datetime) (node_id : pyval)
    (packet : gmap string pyval) (s : uploader) :
  add_telemetry datetime isoformat now node_id packet s
  = match packet !! "decoded" with
    | Some (PyDict dec) =>
        match dec !! "telemetry" with
        | Some (PyDict t) =>
            try_except (three_groups node_id (PyDict t) packet now)
                       (λ _, Some (mret tt)) s
        | _ => Done tt s []
        end
    | _ => Done tt s []
    end.
Proof.
  unfold add_telemetry, get. cbv zeta.
  destruct (packet !! "decoded") as [decoded|] eqn:Hdec; [|reflexivity].
  simpl default.
  destruct decoded as [| | | |str|l|dec]; try reflexivity.
  - simpl contains. unfold try_except.
    destruct (bool_decide (is_Some (String.index 0 "telemetry" str)));
      reflexivity.
  - simpl contains. unfold try_except.
    destruct (existsb (is_str "telemetry") l); reflexivity.
  - simpl contains. simpl getitem.
    destruct (dec !! "telemetry") as [tv|] eqn:Htel.
    + rewrite bool_decide_eq_true_2 by eauto.
      destruct (is_dict tv) eqn:Hd.
      * destruct tv; try discriminate Hd.
        apply try_except_ext.
        rewrite (bind_done (lift (inr true)) _ s s true [] eq_refl).
        rewrite (bind_done (lift (inr (PyDict d))) _ s s (PyDict d) []
                   eq_refl).
        rewrite !after_nil. reflexivity.
      * assert (Hrun :
          try_except
            (telemetry ← lift (inr tv : exn + pyval);
             three_groups node_id telemetry packet now)
            (λ _, Some (mret tt)) s = Done tt s []).
        { destruct (three_groups_not_dict node_id tv packet now s Hd)
            as [H|[e H]].
          - apply try_except_done.
            rewrite (bind_done (lift (inr tv)) _ s s tv [] eq_refl).
            rewrite H. reflexivity.
          - rewrite (try_except_raised _ _ (mret tt) s s e []);
              [reflexivity| |reflexivity].
            rewrite (bind_done (lift (inr tv)) _ s s tv [] eq_refl).
            rewrite H. reflexivity. }
        destruct tv; try discriminate Hd;
          (etransitivity; [|exact Hrun]); apply try_except_ext;
          rewrite (bind_done (lift (inr true)) _ s s true [] eq_refl);
          rewrite after_nil; reflexivity.
    + rewrite bool_decide_eq_false_2 by (intros [? ?]; discriminate).
      reflexivity.
Qed.


Lemma group_records_length (node_id : pyval) (t packet : gmap string pyval)
    (ts : datetime) :
  (length (group_records isoformat node_id t packet ts) ≤ 3)%nat.
Proof.
  unfold group_records. cbn [flat_map]. rewrite !length_app.
  assert (Hone : ∀ k,
    (length match t !! group_key k with
            | Some (PyDict m) =>
                [normalize isoformat k node_id (PyDict m) packet ts]
            | _ => []
            end ≤ 1)%nat).
  { intros k. destruct (t !! group_key k) as [[]|]; simpl; lia. }
  pose proof (Hone device). pose proof (Hone environment).
  pose proof (Hone air_quality). simpl length at 4. lia.
Qed.

Lemma group_records_keys (node_id : pyval) (t packet : gmap string pyval)
    (ts : datetime) :
  Forall (λ r, keys r = RECORD_KEYS)
         (group_records isoformat node_id t packet ts).
Proof.
  unfold group_records. cbn [flat_map]. rewrite !Forall_app.
  assert (Hone : ∀ k,
    Forall (λ r, keys r = RECORD_KEYS)
      match t !! group_key k with
      | Some (PyDict m) => [normalize isoformat k node_id (PyDict m) packet ts]
      | _ => []
      end).
  { intros k. destruct (t !! group_key k) as [[]|]; constructor;
      [apply normalize_keys | constructor]. }
  split; [apply Hone|]. split; [apply Hone|]. split; [apply Hone|constructor].
Qed.

(** X1. A packet whose [decoded] field is a dictionary with a [telemetry]
    dictionary: [add_telemetry] appends to the queue one record for each
    metrics group that is there and is a dictionary, in the order device,
    environment, air quality; a group that is missing or is not a dictionary
    is skipped and the others are still kept; nothing else changes and
    nothing is asked of the outside. *)
Theorem add_telemetry_appends_group_records (now : datetime) (node_id : pyval)
    (packet dec t : gmap string pyval) (s : uploader) :
  queue_lock s = false →
  packet !! "decoded" = Some (PyDict dec) →
  dec !! "telemetry" = Some (PyDict t) →
  add_telemetry datetime isoformat now node_id packet s
  = Done tt
      (set_upload_queue datetime
         (λ q, (q ++ group_records isoformat node_id t packet now)%list) s)
      [].
Proof.
  intros Hlock Hdec Htel. rewrite add_telemetry_body, Hdec, Htel.
  apply try_except_done, three_groups_dict. exact Hlock.
Qed.

Lemma add_telemetry_returns (now : datetime) (node_id : pyval)
    (packet : gmap string pyval) (s : uploader) :
  queue_lock s = false →
  ∃ extra,
    add_telemetry datetime isoformat now node_id packet s
    = Done tt (set_upload_queue datetime (λ q, (q ++ extra)%list) s) []
    ∧ (length extra ≤ 3)%nat
    ∧ Forall (λ r, keys r = RECORD_KEYS) extra.
Proof.
  intros Hlock. rewrite add_telemetry_body.
  destruct (packet !! "decoded") as [decoded|];
    [|exists []; rewrite append_nil; repeat split; [simpl; lia|constructor]].
  destruct decoded as [| | | | | |dec];
    try (exists []; rewrite append_nil; repeat split; [simpl; lia|constructor]).
  destruct (dec !! "telemetry") as [tv|];
    [|exists []; rewrite append_nil; repeat split; [simpl; lia|constructor]].
  destruct tv as [| | | | | |t];
    try (exists []; rewrite append_nil; repeat split; [simpl; lia|constructor]).
  exists (group_records isoformat node_id t packet now).
  split; [apply try_except_done, three_groups_dict; exact Hlock|].
  split; [apply group_records_length | apply group_records_keys].
Qed.

(** X2. Whatever the packet, with the lock free [add_telemetry] returns
    without raising, keeps every queued record in place, appends at most
    three records, each with the 27 keys of the record schema, and changes
    no other field of the uploader. *)
Theorem add_telemetry_only_appends (now : datetime) (node_id : pyval)
    (packet : gmap string pyval) (s : uploader) :
  queue_lock s = false →
  ∃ extra,
    add_telemetry datetime isoformat now node_id packet s
    = Done tt (set_upload_queue datetime (λ q, (q ++ extra)%list) s) []
    ∧ (length extra ≤ 3)%nat
    ∧ Forall (λ r, keys r = RECORD_KEYS) extra.
Proof. apply add_telemetry_returns. Qed.

(** X3. A packet without a telemetry dictionary inside a [decoded]
    dictionary (a key is missing, or a value has another type, whatever
    exception that raises inside) is ignored: [add_telemetry] returns with
    the uploader as it was, and does not even take the lock. *)
Theorem add_telemetry_ignores_other_packets (now : datetime) (node_id : pyval)
    (packet : gmap string pyval) (s : uploader) :
  (∀ dec t, packet !! "decoded" = Some (PyDict dec) →
            dec !! "telemetry" ≠ Some (PyDict t)) →
  add_telemetry datetime isoformat now node_id packet s = Done tt s [].
Proof.
  intros Hno. rewrite add_telemetry_body.
  destruct (packet !! "decoded") as [decoded|]; [|reflexivity].
  destruct decoded as [| | | | | |dec]; try reflexivity.
  destruct (dec !! "telemetry") as [tv|] eqn:Htel; [|reflexivity].
  destruct tv as [| | | | | |t]; try reflexivity.
  exfalso. exact (Hno dec t eq_refl Htel).
Qed.


(** X4. Whatever the packet, with the uploader's lock free [_on_receive]
    returns without raising and asks nothing of the outside; it counts the
    packet in [packets_received] even when the packet is then dropped; it
    counts it in [telemetry_packets] and hands it to [add_telemetry] exactly
    when its [from] field is false or an integer and its [decoded] field is
    a dictionary with the telemetry port; otherwise the uploader is left as
    it was. *)
Theorem on_receive_counts (now : datetime) (packet : gmap string pyval)
    (a : app datetime) :
  queue_lock (the_uploader a) = false →
  let r := the_receiver a in
  _on_receive datetime isoformat now packet a
  = Done tt
      (App
         (Receiver (interface r) (receiver_running r) (packets_received r + 1)
            (telemetry_packets r + if reaches_uploader packet then 1 else 0))
         (if reaches_uploader packet
          then final (add_telemetry datetime isoformat now
                        (get_default packet "fromId" (PyStr "unknown")) packet
                        (the_uploader a))
          else the_uploader a))
      [].
Proof.
  intros Hlock r. subst r. destruct a as [[i rr pr tp] u]. simpl in Hlock.
  cbn [the_receiver the_uploader interface receiver_running packets_received
       telemetry_packets].
  destruct (add_telemetry_returns now
              (get_default packet "fromId" (PyStr "unknown")) packet u Hlock)
    as (extra & Hadd & _).
  unfold _on_receive, reaches_uploader. cbv zeta.
  generalize dependent (get_default packet "fromId" (PyStr "unknown")).
  intros from_id Hadd.
  generalize (get_default packet "from" (PyInt 0)).
  generalize (get_default packet "decoded" (PyDict ∅)).
  intros decoded from_node.
  unfold try_except, on_receiver, on_uploader.
  unfold mbind at 1, M_bind at 1, bind at 1.
  cbn [zoom modify the_receiver the_uploader interface receiver_running
       packets_received telemetry_packets after List.app].
  assert (Hzero : (tp + 0 = tp)%Z) by lia.
  assert (Hstep : ∀ (o : outcome (app datetime) unit), after [] o = o)
    by (intros []; reflexivity).
  destruct (truthy from_node) eqn:Htruthy;
    [destruct from_node as [|fb|fz|ff|fs|fl|fd]|];
    cbn [negb orb andb hex lift];
    unfold mbind at 1, M_bind at 1, bind at 1;
    cbn [raise ret mret M_ret lift after List.app];
    try (rewrite Hzero; reflexivity).
  all: destruct decoded as [| | | | | |d];
    unfold mbind at 1, M_bind at 1, bind at 1;
    cbn [getattr_get raise ret mret M_ret lift after List.app];
    try (rewrite Hzero; reflexivity).
  all: destruct (is_str "TELEMETRY_APP" (get d "portnum"));
    [|rewrite Hzero; reflexivity].
  all: unfold mbind at 1, M_bind at 1, bind at 1;
    cbn [zoom modify the_receiver the_uploader interface receiver_running
         packets_received telemetry_packets];
    rewrite !Hstep; unfold zoom; cbn [the_uploader the_receiver];
    rewrite Hadd; reflexivity.
Qed.






End ReceivingFacts.

(** ** The worker over many turns *)

Section WorkerFacts.

Import Meshtastic Spec Summary.

Context {datetime : Type} (cfg : config).

Local Abbreviation uploader := (uploader datetime).
Local Abbreviation N := (UPLOAD_BATCH_SIZE cfg).
Local Abbreviation url := (upload_url cfg).
Local Abbreviation interval := (UPLOAD_INTERVAL_SEC cfg).

Lemma slice_to_count {A} (n : Z) (l : list A) :
  slice_to n l = take (slice_count n (length l)) l.
Proof.
  unfold slice_to, slice_count. rewrite take_min.
  destruct (Z.leb 0 n); reflexivity.
Qed.

Lemma del_slice_to_count {A} (n : Z) (l : list A) :
  del_slice_to n l = drop (slice_count n (length l)) l.
Proof.
  unfold del_slice_to, slice_count. rewrite drop_min.
  destruct (Z.leb 0 n); reflexivity.
Qed.

Lemma slice_count_le (n : Z) (len : nat) : (slice_count n len ≤ len)%nat.
Proof. unfold slice_count. lia. Qed.

Lemma not_accepted_not_rejected (post : post_result) :
  accepted post = false → rejected post = false →
  ∃ e, post = Fails e ∧ is_RequestException e = false.
Proof.
  destruct post as [r|e]; simpl.
  - intros ->. discriminate.
  - intros _ He. exists e. split; [reflexivity | exact He].
Qed.

(** A turn of the worker whose flush interval [time.sleep] refuses: the
    exception is caught by the handler of the loop, which sleeps five
    seconds; the queue is not looked at and nothing is posted. *)
Lemma turn_refused (s : uploader) (post : post_result) (now : datetime) :
  sleep_ok interval = false →
  _upload_worker_turn datetime cfg post now s = Done tt s [Sleep 5].
Proof.
  intros Hsleep. unfold _upload_worker_turn.
  destruct (sleep_refused interval s Hsleep) as [e He].
  rewrite (try_except_raised _ _ (sleep 5) s s e []);
    [reflexivity | | reflexivity].
  apply bind_raised. exact He.
Qed.

(** One turn of the worker after a sleep that [time.sleep] accepts, in
    every case. *)
Lemma turn_run (s : uploader) (post : post_result) (now : datetime) :
  queue_lock s = false → sleep_ok interval = true →
  let q := upload_queue s in
  let k := slice_count N (length q) in
  _upload_worker_turn datetime cfg post now s
  = Done tt
      (if Nat.eqb k 0 then s
       else if accepted post then
         set_last_upload datetime now
           (set_total_uploaded datetime (λ c, (c + Z.of_nat k)%Z)
              (set_upload_queue datetime (λ _, drop k q) s))
       else if rejected post then
         set_upload_queue datetime (λ _, (drop k q ++ take k q)%list) s
       else set_upload_queue datetime (λ _, drop k q) s)
      (Sleep interval
         :: if Nat.eqb k 0 then [] else [CallPost url (PyList (take k q)) 30]).
Proof.
  intros Hlock Hsleep q k. unfold _upload_worker_turn. apply try_except_done.
  rewrite (bind_done (sleep interval) _ s s tt [Sleep interval]
             (sleep_valid _ _ Hsleep)).
  destruct (upload_queue s) as [|x q'] eqn:Hq.
  { subst q k. simpl.
    erewrite bind_done by (rewrite drain_free, Hq by exact Hlock; reflexivity).
    reflexivity. }
  erewrite bind_done
    by (apply drain_nonempty; [exact Hlock | rewrite Hq; discriminate]).
  rewrite Hq, slice_to_count. fold q k. cbn [after List.app].
  assert (Hdel : set_upload_queue datetime (del_slice_to N) s
                 = set_upload_queue datetime (λ _, drop k q) s).
  { unfold set_upload_queue. rewrite del_slice_to_count, Hq. reflexivity. }
  rewrite Hdel.
  assert (Hlen : length (take k q) = k).
  { rewrite length_take. pose proof (slice_count_le N (length q)).
    fold k in H. lia. }
  unfold truthy. rewrite Hlen.
  destruct (Nat.eqb k 0) eqn:Hk0.
  - apply Nat.eqb_eq in Hk0. rewrite Hk0, drop_0. subst q.
    destruct s; simpl in *; subst; reflexivity.
  - apply Nat.eqb_neq in Hk0. cbn [negb].
    assert (Hne : take k q ≠ []).
    { intros E. rewrite E in Hlen. simpl in Hlen. lia. }
    assert (Hlock' : queue_lock (set_upload_queue datetime (λ _, drop k q) s)
                     = false) by (destruct s; exact Hlock).
    destruct (accepted post) eqn:Hacc.
    + rewrite upload_batch_accepted by assumption. rewrite Hlen. reflexivity.
    + destruct (rejected post) eqn:Hrej.
      * rewrite upload_batch_rejected by assumption.
        destruct s; reflexivity.
      * destruct (not_accepted_not_rejected post Hacc Hrej) as (e & -> & He).
        rewrite upload_batch_crashed by assumption. reflexivity.
Qed.



(** The facts that a turn keeps, whatever the batch size. *)
Lemma turn_facts (s : uploader) (post : post_result) (now : datetime) :
  queue_lock s = false →
  ∃ s' evs,
    _upload_worker_turn datetime cfg post now s = Done tt s' evs
    ∧ queue_lock s' = false
    ∧ running s' = running s
    ∧ (accepted post || rejected post = true →
       (total_uploaded s' + Z.of_nat (length (upload_queue s'))
        = total_uploaded s + Z.of_nat (length (upload_queue s)))%Z)
    ∧ (rejected post = true →
       upload_queue s' ≡ₚ upload_queue s
       ∧ total_uploaded s' = total_uploaded s
       ∧ last_upload s' = last_upload s)
    ∧ (accepted post = true →
       (posted evs ++ upload_queue s')%list = upload_queue s
       ∧ total_uploaded s' = (total_uploaded s + Z.of_nat (length (posted evs)))%Z).
Proof.
  intros Hlock. destruct (sleep_ok interval) eqn:Hsleep.
  2: { rewrite turn_refused by exact Hsleep. exists s, [Sleep 5].
       split; [reflexivity|]. split; [exact Hlock|]. split; [reflexivity|].
       split; [reflexivity|]. split; [repeat split; reflexivity|].
       intros _. split; [reflexivity | simpl; lia]. }
  rewrite turn_run by assumption.
  set (q := upload_queue s). set (k := slice_count N (length q)).
  assert (Hk : (k ≤ length q)%nat) by apply slice_count_le.
  assert (Hrej_acc : rejected post = true → accepted post = false).
  { destruct post; simpl; [|reflexivity]. intros H.
    apply negb_true_iff in H. exact H. }
  do 2 eexists. split; [reflexivity|].
  destruct (Nat.eqb k 0) eqn:Hk0.
  - split; [exact Hlock|]. split; [reflexivity|]. split; [reflexivity|].
    split; [repeat split; reflexivity|].
    intros _. simpl. split; reflexivity || lia.
  - apply Nat.eqb_neq in Hk0.
    destruct (accepted post) eqn:Hacc; [|destruct (rejected post) eqn:Hrej].
    + split; [destruct s; exact Hlock|]. split; [destruct s; reflexivity|].
      split.
      { intros _. destruct s; simpl in *. subst q.
        rewrite length_drop. lia. }
      split; [intros Hr; apply Hrej_acc in Hr; discriminate|].
      intros _. unfold posted. cbn [flat_map]. rewrite app_nil_r.
      split; [destruct s; simpl; apply take_drop|].
      destruct s; simpl in *. rewrite length_take. subst q. simpl. lia.
    + split; [destruct s; exact Hlock|]. split; [destruct s; reflexivity|].
      split.
      { intros _. destruct s; simpl in *. subst q.
        rewrite length_app, length_drop, length_take. lia. }
      split; [|discriminate].
      intros _. destruct s; simpl in *. subst q.
      split; [|split; reflexivity].
      rewrite Permutation_app_comm, take_drop. reflexivity.
    + split; [destruct s; exact Hlock|]. split; [destruct s; reflexivity|].
      split; [discriminate|]. split; discriminate.
Qed.


Lemma worker_stopped (inputs : list (post_result * datetime)) (s : uploader) :
  running s = false → _upload_worker datetime cfg inputs s = Done tt s [].
Proof.
  intros Hrun. destruct inputs as [|[post now] rest]; [reflexivity|].
  cbn [_upload_worker].
  unfold mbind at 1, M_bind at 1, bind at 1. unfold gets. rewrite Hrun.
  reflexivity.
Qed.

Lemma worker_step (post : post_result) (now : datetime)
    (rest : list (post_result * datetime)) (s s1 : uploader)
    (evs : list event) :
  running s = true →
  _upload_worker_turn datetime cfg post now s = Done tt s1 evs →
  _upload_worker datetime cfg ((post, now) :: rest) s
  = after evs (_upload_worker datetime cfg rest s1).
Proof.
  intros Hrun Hturn. cbn [_upload_worker].
  unfold mbind at 1, M_bind at 1, bind at 1. unfold gets. rewrite Hrun.
  erewrite bind_done by exact Hturn.
  destruct (after evs (_upload_worker datetime cfg rest s1)); reflexivity.
Qed.

Lemma posted_app (evs1 evs2 : list event) :
  posted (evs1 ++ evs2) = (posted evs1 ++ posted evs2)%list.
Proof. unfold posted. apply flat_map_app. Qed.

(** X6. Over any number of worker turns in which every POST is either
    accepted or rejected (none raises another exception), the worker
    returns with the lock free and no record is lost or counted twice: the
    counter of uploaded records plus the length of the queue stays what it
    was. *)
Theorem worker_conserves_records (inputs : list (post_result * datetime))
    (s : uploader) :
  queue_lock s = false →
  Forall (λ i, accepted i.1 || rejected i.1 = true) inputs →
  ∃ s' evs,
    _upload_worker datetime cfg inputs s = Done tt s' evs
    ∧ queue_lock s' = false
    ∧ (total_uploaded s' + Z.of_nat (length (upload_queue s'))
       = total_uploaded s + Z.of_nat (length (upload_queue s)))%Z.
Proof.
  intros Hlock Hall. revert s Hlock.
  induction Hall as [|[post now] rest Hpost _ IH]; intros s Hlock.
  { exists s, []. repeat split; [exact Hlock]. }
  destruct (running s) eqn:Hrun.
  - destruct (turn_facts s post now Hlock)
      as (s1 & evs1 & Hturn & Hlock1 & _ & Hcount & _).
    destruct (IH s1 Hlock1) as (s' & evs & Hrest & Hlock' & Hsum).
    exists s', (evs1 ++ evs)%list.
    rewrite (worker_step post now rest s s1 evs1 Hrun Hturn), Hrest.
    split; [reflexivity|]. split; [exact Hlock'|].
    rewrite Hsum. apply Hcount. exact Hpost.
  - exists s, []. rewrite worker_stopped by exact Hrun.
    repeat split; [exact Hlock].
Qed.

(** X7. Over any number of worker turns whose POSTs are all rejected (an
    outage), nothing is lost: the queue is a rearrangement of what it was,
    and the counter and the time of the last success are unchanged. *)
Theorem worker_outage_keeps_queue (inputs : list (post_result * datetime))
    (s : uploader) :
  queue_lock s = false →
  Forall (λ i, rejected i.1 = true) inputs →
  ∃ s' evs,
    _upload_worker datetime cfg inputs s = Done tt s' evs
    ∧ upload_queue s' ≡ₚ upload_queue s
    ∧ total_uploaded s' = total_uploaded s
    ∧ last_upload s' = last_upload s.
Proof.
  intros Hlock Hall. revert s Hlock.
  induction Hall as [|[post now] rest Hpost _ IH]; intros s Hlock.
  { exists s, []. repeat split; reflexivity. }
  destruct (running s) eqn:Hrun.
  - destruct (turn_facts s post now Hlock)
      as (s1 & evs1 & Hturn & Hlock1 & _ & _ & Hrej & _).
    destruct (Hrej Hpost) as (Hperm1 & Htot1 & Hlast1).
    destruct (IH s1 Hlock1) as (s' & evs & Hrest & Hperm & Htot & Hlast).
    exists s', (evs1 ++ evs)%list.
    rewrite (worker_step post now rest s s1 evs1 Hrun Hturn), Hrest.
    split; [reflexivity|].
    split; [rewrite Hperm; exact Hperm1|].
    split; congruence.
  - exists s, []. rewrite worker_stopped by exact Hrun.
    repeat split; reflexivity.
Qed.

(** X8. Over any number of worker turns whose POSTs are all accepted, the
    records leave in the order of the queue: the records of the POSTs, one
    call after the other, followed by what is left in the queue, are the
    queue as it was, and the counter has grown by the number of records
    sent. *)
Theorem worker_uploads_in_order (inputs : list (post_result * datetime))
    (s : uploader) :
  queue_lock s = false →
  Forall (λ i, accepted i.1 = true) inputs →
  ∃ s' evs,
    _upload_worker datetime cfg inputs s = Done tt s' evs
    ∧ (posted evs ++ upload_queue s')%list = upload_queue s
    ∧ total_uploaded s'
      = (total_uploaded s + Z.of_nat (length (posted evs)))%Z.
Proof.
  intros Hlock Hall. revert s Hlock.
  induction Hall as [|[post now] rest Hpost _ IH]; intros s Hlock.
  { exists s, []. split; [reflexivity|]. split; [reflexivity | simpl; lia]. }
  destruct (running s) eqn:Hrun.
  - destruct (turn_facts s post now Hlock)
      as (s1 & evs1 & Hturn & Hlock1 & _ & _ & _ & Hacc).
    destruct (Hacc Hpost) as (Hq1 & Htot1).
    destruct (IH s1 Hlock1) as (s' & evs & Hrest & Hq & Htot).
    exists s', (evs1 ++ evs)%list.
    rewrite (worker_step post now rest s s1 evs1 Hrun Hturn), Hrest.
    split; [reflexivity|].
    rewrite posted_app, length_app.
    split; [rewrite <- app_assoc, Hq; exact Hq1 | lia].
  - exists s, []. rewrite worker_stopped by exact Hrun.
    split; [reflexivity|]. split; [reflexivity | simpl; lia].
Qed.


(** X9. When the final POST of [shutdown] is not rejected, [shutdown]
    returns with the queue empty, the lock free and [running] false; the
    counter has grown by the number of queued records when the POST was
    accepted, and not at all when the POST raised an exception that is not
    a transport error: the queued records are then discarded uncounted.
    A worker that runs afterwards does nothing. *)
Theorem shutdown_flush_outcomes (s : uploader) (post : post_result)
    (now : datetime) (alive : bool)
    (inputs : list (post_result * datetime)) :
  queue_lock s = false → upload_queue s ≠ [] → rejected post = false →
  ∃ s',
    shutdown datetime cfg post now alive s
    = Done tt s'
        (CallPost url (PyList (upload_queue s)) 30
           :: if alive then [Join 10] else [])
    ∧ upload_queue s' = []
    ∧ running s' = false
    ∧ queue_lock s' = false
    ∧ total_uploaded s'
      = (total_uploaded s
         + if accepted post then Z.of_nat (length (upload_queue s)) else 0)%Z
    ∧ _upload_worker datetime cfg inputs s' = Done tt s' [].
Proof.
  intros Hlock Hq Hrej. rewrite shutdown_run, Hrej by assumption.
  eexists. split; [reflexivity|].
  split; [destruct (accepted post), s; reflexivity|].
  assert (Hrun : ∀ s0 : uploader,
    running (set_upload_queue datetime (λ _, [])
               (if accepted post
                then set_last_upload datetime now
                       (set_total_uploaded datetime
                          (λ c, (c + Z.of_nat (length (upload_queue s)))%Z)
                          (set_running datetime false s0))
                else set_running datetime false s0)) = false)
    by (intros s0; destruct (accepted post), s0; reflexivity).
  split; [apply Hrun|].
  split; [destruct (accepted post), s; exact Hlock|].
  split; [destruct (accepted post), s; simpl; lia|].
  apply worker_stopped, Hrun.
Qed.




End WorkerFacts.

(** ** The fields that every record shares *)

(** X10. In every record of the normalizer, whatever its kind: the sensor
    identifier, the formatted time, the signal strength and the
    signal-to-noise ratio of the packet, and the metrics object itself under
    [raw_data], are copied; the hop limit of the packet is copied into device
    records only and is [None] in the two other kinds; [location],
    [hop_start], [ch3_voltage] and [ch3_current] are always [None]. *)
Theorem record_common_fields {datetime : Type} (isoformat : datetime → string)
    (k : Normalizer.kind) (node_id : pyval) (m packet : gmap string pyval)
    (ts : datetime) :
  let r := Normalizer.normalize isoformat k node_id (PyDict m) packet ts in
  Normalizer.field r "sensor_id" = Some node_id
  ∧ Normalizer.field r "timestamp" = Some (PyStr (isoformat ts))
  ∧ Normalizer.field r "rssi" = Some (get packet "rxRssi")
  ∧ Normalizer.field r "snr" = Some (get packet "rxSnr")
  ∧ Normalizer.field r "hop_limit"
    = Some match k with
           | Normalizer.device => get packet "hopLimit"
           | _ => PyNone
           end
  ∧ Normalizer.field r "raw_data" = Some (PyDict m)
  ∧ Normalizer.field r "location" = Some PyNone
  ∧ Normalizer.field r "hop_start" = Some PyNone
  ∧ Normalizer.field r "ch3_voltage" = Some PyNone
  ∧ Normalizer.field r "ch3_current" = Some PyNone.
Proof. intros r. subst r. destruct k; repeat split; reflexivity. Qed.

(** ** Trailing slashes and the address of the POST *)

Section SlashFacts.

Import Summary.

Lemma rstrip_slashes (n : nat) : rstrip_slash (slashes n) = "".
Proof.
  induction n as [|n IH]; [reflexivity|].
  cbn [slashes rstrip_slash]. rewrite IH. reflexivity.
Qed.

(** X11. [rstrip_slash] removes the trailing slashes and nothing else: every
    string is its result followed by slashes only, and the result does not
    end with a slash. *)
Theorem rstrip_slash_spec (s : string) :
  (∃ n, s = rstrip_slash s ++ slashes n)
  ∧ last_char (rstrip_slash s) ≠ Some (Ascii.ascii_of_nat 47).
Proof.
  induction s as [|c s' [[n Hn] Hlast]].
  { split; [exists 0%nat; reflexivity | discriminate]. }
  cbn [rstrip_slash].
  destruct (rstrip_slash s') as [|c' r'] eqn:Hr.
  - destruct (Ascii.eqb c (Ascii.ascii_of_nat 47)) eqn:Hc.
    + apply Ascii.eqb_eq in Hc. subst c.
      split; [exists (S n); rewrite Hn; reflexivity | discriminate].
    + apply Ascii.eqb_neq in Hc.
      split; [exists n; rewrite Hn at 1; reflexivity|].
      simpl. congruence.
  - split; [exists n; rewrite Hn at 1; reflexivity|].
    exact Hlast.
Qed.

Lemma rstrip_slash_app_slashes (s : string) (n : nat) :
  rstrip_slash (s ++ slashes n) = rstrip_slash s.
Proof.
  induction s as [|c s' IH]; [apply rstrip_slashes|].
  change (String c s' ++ slashes n) with (String c (s' ++ slashes n)).
  cbn [rstrip_slash]. rewrite IH. reflexivity.
Qed.

(** X12. Trailing slashes of the configured addresses do not change where
    the batches go: the address is that of the ingestion route when
    [API_BASE_URL] is not empty and that of the table otherwise, with exactly
    one slash before the path (unless the base is slashes only). *)
Theorem upload_url_ignores_trailing_slashes
    (supabase_url api_base_url : string) (batch_size interval : Z) (n : nat) :
  Meshtastic.upload_url
    (Meshtastic.Config (supabase_url ++ slashes n) "" batch_size interval)
  = rstrip_slash supabase_url ++ "/rest/v1/meshtastic_telemetry"
  ∧ (api_base_url ≠ "" →
     Meshtastic.upload_url
       (Meshtastic.Config supabase_url (api_base_url ++ slashes n)
          batch_size interval)
     = rstrip_slash api_base_url ++ "/api/ingest/meshtastic")
  ∧ Supabase.init (api_base_url ++ slashes n) = Supabase.init api_base_url.
Proof.
  split; [|split].
  - unfold Meshtastic.upload_url. cbn [Meshtastic.API_BASE_URL
      Meshtastic.SUPABASE_URL truthy String.eqb negb].
    rewrite rstrip_slash_app_slashes. reflexivity.
  - intros Hne. unfold Meshtastic.upload_url.
    cbn [Meshtastic.API_BASE_URL Meshtastic.SUPABASE_URL truthy].
    destruct api_base_url as [|c rest]; [congruence|].
    change (String.eqb (String c rest ++ slashes n) "") with false.
    change (String.eqb (String c rest) "") with false.
    cbn [negb]. rewrite rstrip_slash_app_slashes. reflexivity.
  - unfold Supabase.init. rewrite rstrip_slash_app_slashes. reflexivity.
Qed.

End SlashFacts.

(** ** [SupabaseUploader]: what is kept and what is sent *)

Section SupabaseFacts.

Import Supabase Summary.

Lemma upload_batch_run (post : post_result) (u : uploader) :
  ∃ evs,
    upload_batch post u
    = Done tt (if clears post then Uploader (api_base u) [] else u) evs.
Proof.
  destruct u as [base pending]. unfold clears.
  destruct pending as [|x p].
  { exists []. destruct post as [r|e]; [|reflexivity].
    destruct (Z.eqb (status_code r) 200 && _); reflexivity. }
  destruct post as [r|e]; [|eexists; reflexivity].
  unfold upload_batch. run_monad.
  destruct (Z.eqb (status_code r) 200); [|eexists; reflexivity].
  destruct (json_body r) as [v|]; [|eexists; reflexivity].
  destruct v; eexists; reflexivity.
Qed.

(** X13. [upload_batch] never raises and never loses a reading by a
    failure: the pending readings are cleared exactly when the answer has
    status 200 and a JSON object as body; after any other end of the POST
    (another status, 201 included, a body that is not JSON or not an object,
    any exception) they are all still pending. *)
Theorem upload_batch_keeps_or_clears (post : post_result) (u : uploader) :
  ∃ evs,
    upload_batch post u
    = Done tt (if clears post then Uploader (api_base u) [] else u) evs.
Proof. apply upload_batch_run. Qed.

(** X14. [add_reading] never raises and never drops the new reading: after
    it, the pending list is the old one followed by the new reading, unless
    the list had reached [BATCH_SIZE] and its POST was answered 200 with a
    JSON object, in which case nothing is pending. *)
Theorem add_reading_keeps_reading (batch_size : Z) (post : post_result)
    (reading : SensorReading) (u : uploader) :
  ∃ evs,
    add_reading batch_size post reading u
    = Done tt
        (Uploader (api_base u)
           (if Z.leb batch_size (Z.of_nat (length (pending_readings u) + 1))
               && clears post
            then []
            else (pending_readings u ++ [reading])%list))
        evs.
Proof.
  destruct u as [base pending]. unfold add_reading.
  erewrite bind_done by reflexivity.
  erewrite bind_done by reflexivity.
  cbn beta iota delta [set_pending pending_readings api_base after List.app].
  rewrite length_app. change (length [reading]) with 1%nat.
  destruct (Z.leb batch_size (Z.of_nat (length pending + 1))); cbn [andb];
    [|eexists; reflexivity].
  destruct (upload_batch_run post
              (Uploader base (pending ++ [reading]))) as [evs Hrun].
  exists evs.
  change (set_pending (λ p, (p ++ [reading])%list) (Uploader base pending))
    with (Uploader base (pending ++ [reading])).
  rewrite Hrun. destruct (clears post); reflexivity.
Qed.

(** X16. [upload_single] never raises, leaves the pending readings alone and
    makes exactly one POST, of one dictionary; its result is true exactly
    when the POST returned with status 200.  The dictionary never carries
    the altitude, the device metrics, the radio fields or the raw
    metrics of the reading. *)
Theorem upload_single_result (post : post_result) (reading : SensorReading)
    (u : uploader) :
  upload_single post reading u
  = Done
      match post with
      | Responds r => Z.eqb (status_code r) 200
      | Fails _ => false
      end
      u
      [CallPost (api_base u ++ "/api/ingest/sensors")
         (single_payload_of reading) 30]
  ∧ ∀ f, f ∈ ["altitude_m"; "voltage"; "battery_level"; "air_util_tx";
              "uptime_seconds"; "rssi"; "snr"; "raw_data"] →
         Normalizer.field (single_payload_of reading) f = None.
Proof.
  split.
  - destruct u as [base pending]. destruct post as [r|e]; [|reflexivity].
    unfold upload_single. run_monad.
    destruct (Z.eqb (status_code r) 200); reflexivity.
  - intros f Hf. unfold single_payload_of, set_if_present.
    rewrite !elem_of_cons, elem_of_nil in Hf.
    destruct (is_None (latitude reading)), (is_None (longitude reading)),
      (is_None (pm25_ugm3 reading)), (is_None (pm10_ugm3 reading)),
      (is_None (temperature_c reading)),
      (is_None (relative_humidity_pct reading));
      repeat (destruct Hf as [Hf|Hf]); try contradiction; subst f;
      reflexivity.
Qed.

End SupabaseFacts.

Section PayloadFacts.

Import Supabase Summary.

Lemma lookup_set_if_present_eq (k : string) (v : pyval)
    (d : gmap string pyval) :
  set_if_present k v d !! k = if is_None v then d !! k else Some v.
Proof.
  unfold set_if_present. destruct (is_None v); [reflexivity|].
  apply lookup_insert_eq.
Qed.

Lemma lookup_set_if_present_ne (k f : string) (v : pyval)
    (d : gmap string pyval) :
  k ≠ f → set_if_present k v d !! f = d !! f.
Proof.
  intros Hne. unfold set_if_present. destruct (is_None v); [reflexivity|].
  apply lookup_insert_ne. exact Hne.
Qed.

(** Look a literal key up through the conditional assignments. *)
Ltac through_assignments :=
  repeat first [ rewrite lookup_set_if_present_eq
               | rewrite lookup_set_if_present_ne by discriminate ].

Lemma dom_set_if_present (k : string) (v : pyval) (d : gmap string pyval)
    (S : gset string) :
  k ∈ S → dom d ⊆ S → dom (set_if_present k v d) ⊆ S.
Proof.
  unfold set_if_present. destruct (is_None v); [intros _ Hd; exact Hd|].
  rewrite dom_insert_L. set_solver.
Qed.

(** X15. The dictionary that [upload_batch] sends for a reading has the
    sensor identifier and the time; the position under [location] exactly
    when latitude and longitude are both set; each of the eleven optional
    fields exactly when it is set, with its value; never the raw metrics;
    and no other key.  Unlike the records of the other uploader, an unset
    field is left out, not sent as [None]. *)
Theorem payload_fields (reading : SensorReading) :
  let r := payload_of reading in
  Normalizer.field r "sensor_id" = Some (sensor_id reading)
  ∧ Normalizer.field r "timestamp" = Some (timestamp reading)
  ∧ Normalizer.field r "location"
    = (if negb (is_None (latitude reading))
          && negb (is_None (longitude reading))
       then Some (PyDict (list_to_map [ ("latitude", latitude reading);
                                        ("longitude", longitude reading) ]))
       else None)
  ∧ (∀ f v, (f, v) ∈ optional_fields reading →
            Normalizer.field r f = if is_None v then None else Some v)
  ∧ Normalizer.field r "raw_data" = None
  ∧ Normalizer.keys r
    ⊆ list_to_set ([ "sensor_id"; "timestamp"; "location" ]
                   ++ (optional_fields reading).*1).
Proof.
  intros r. subst r. unfold payload_of. cbv zeta.
  cbn [Normalizer.field Normalizer.keys].
  set (cond := negb (is_None (latitude reading))
               && negb (is_None (longitude reading))).
  split; [|split; [|split; [|split; [|split]]]].
  - through_assignments. destruct cond; reflexivity.
  - through_assignments. destruct cond; reflexivity.
  - through_assignments. destruct cond; reflexivity.
  - intros f v Hf. unfold optional_fields in Hf.
    rewrite !elem_of_cons, elem_of_nil in Hf.
    repeat (destruct Hf as [Hf|Hf]); try contradiction;
      injection Hf as -> ->; through_assignments;
      destruct (is_None _); try reflexivity; destruct cond; reflexivity.
  - through_assignments. destruct cond; reflexivity.
  - repeat (apply dom_set_if_present;
            [apply elem_of_list_to_set; simpl; repeat constructor|]).
    destruct cond; [rewrite dom_insert_L|]; set_solver.
Qed.

End PayloadFacts.

(** ** [process_telemetry] of the second uploader *)

Section ProcessTelemetryFacts.

Import Supabase Summary.

Context {datetime : Type} (isoformat : datetime → string) (BATCH_SIZE : Z).

Lemma add_reading_below (post : post_result) (reading : SensorReading)
    (u : uploader) :
  (Z.of_nat (length (pending_readings u)) + 1 < BATCH_SIZE)%Z →
  add_reading BATCH_SIZE post reading u
  = Done tt (Uploader (api_base u) (pending_readings u ++ [reading])) [].
Proof.
  intros Hlt. destruct u as [base pending]. unfold add_reading.
  erewrite bind_done by reflexivity.
  erewrite bind_done by reflexivity.
  cbn beta iota delta [set_pending pending_readings api_base after List.app].
  rewrite length_app. change (length [reading]) with 1%nat.
  simpl in Hlt.
  destruct (Z.leb_spec BATCH_SIZE (Z.of_nat (length pending + 1)));
    [lia | reflexivity].
Qed.

(** X17. In the second uploader one bad group spoils the packet: when the
    device metrics of a telemetry packet are there but are not a dictionary,
    [process_telemetry] and [on_receive] return with the reader as it was
    and without any call: the environment metrics of the same packet, even
    when they are well formed, are not read. *)
Theorem bad_device_group_drops_packet
    (post_device post_environment : post_result)
    (now_device now_environment : datetime)
    (packet dec t : gmap string pyval) (v : pyval) (r : reader) :
  packet !! "decoded" = Some (PyDict dec) →
  dec !! "telemetry" = Some (PyDict t) →
  t !! "deviceMetrics" = Some v →
  is_dict v = false →
  process_telemetry datetime isoformat BATCH_SIZE post_device
    post_environment now_device now_environment packet r = Done tt r []
  ∧ on_receive datetime isoformat BATCH_SIZE post_device post_environment
      now_device now_environment packet r = Done tt r [].
Proof.
  intros Hdec Htel Hdev Hv.
  assert (Hproc : process_telemetry datetime isoformat BATCH_SIZE post_device
    post_environment now_device now_environment packet r = Done tt r []).
  { unfold process_telemetry, try_except. rewrite Hdec.
    do 5 (unfold mbind at 1, M_bind at 1, bind at 1;
          cbn [lift ret raise gets getitem contains after List.app];
          rewrite ?Htel, ?Hdev).
    rewrite (bool_decide_eq_true_2 (is_Some (Some v)) (mk_is_Some _ _ eq_refl)).
    cbn [lift ret raise gets getitem contains after List.app].
    unfold mbind at 1, M_bind at 1, bind at 1.
    unfold mbind at 1, M_bind at 1, bind at 1.
    cbn [lift ret raise gets getitem contains after List.app].
    unfold mbind at 1, M_bind at 1, bind at 1.
    destruct v; try discriminate Hv; reflexivity. }
  split; [exact Hproc|].
  unfold on_receive, try_except. rewrite Hdec.
  unfold mbind at 1, M_bind at 1, bind at 1.
  cbn [lift ret raise getattr_get after List.app].
  destruct (is_str "TELEMETRY_APP" (get dec "portnum")).
  - unfold mbind at 1, M_bind at 1, bind at 1.
    cbn [lift ret raise contains after List.app].
    rewrite Htel.
    rewrite (bool_decide_eq_true_2 (is_Some (Some (PyDict t)))
               (mk_is_Some _ _ eq_refl)).
    cbn [lift ret raise contains after List.app].
    rewrite Hproc. reflexivity.
  - reflexivity.
Qed.


Lemma after_nil' {S A} (o : outcome S A) : after [] o = o.
Proof. destruct o; reflexivity. Qed.

Lemma try_except_bind_done {S A B} (m : M S A) (k : A → M S B)
    (h : exn → option (M S B)) (s s1 : S) (a : A) :
  m s = Done a s1 [] → try_except (m ≫= k) h s = try_except (k a) h s1.
Proof.
  intros H. unfold try_except. rewrite (bind_done m k s s1 a [] H).
  rewrite after_nil'. reflexivity.
Qed.

Lemma bool_decide_is_Some_Some {A} (x : A) :
  bool_decide (is_Some (Some x)) = true.
Proof. apply bool_decide_eq_true_2. eexists. reflexivity. Qed.

Lemma bool_decide_is_Some_None {A} :
  bool_decide (is_Some (@None A)) = false.
Proof. apply bool_decide_eq_false_2. intros [x Hx]. discriminate. Qed.

Lemma on_uploader_add_reading_below (post : post_result)
    (reading : SensorReading) (r : reader) :
  (Z.of_nat (length (pending_readings (the_uploader r))) + 1 < BATCH_SIZE)%Z →
  on_uploader (add_reading BATCH_SIZE post reading) r
  = Done tt
      (Reader
         (Uploader (api_base (the_uploader r))
            (pending_readings (the_uploader r) ++ [reading]))
         (default_lat r) (default_lon r)) [].
Proof.
  intros Hlt. unfold on_uploader, zoom.
  rewrite add_reading_below by exact Hlt. reflexivity.
Qed.

(** X18. A telemetry packet whose device metrics are missing or are a
    dictionary, received while the batch is far from full: [process_telemetry]
    appends to the pending readings the device reading first, then the
    environment reading, one for each group that is there and is a
    dictionary, both with the default position of the reader, and makes no
    call. *)
Theorem process_telemetry_appends_readings
    (post_device post_environment : post_result)
    (now_device now_environment : datetime)
    (packet dec t : gmap string pyval) (r : reader) :
  packet !! "decoded" = Some (PyDict dec) →
  dec !! "telemetry" = Some (PyDict t) →
  (∀ v, t !! "deviceMetrics" = Some v → is_dict v = true) →
  (Z.of_nat (length (pending_readings (the_uploader r))) + 2 < BATCH_SIZE)%Z →
  let from_id := get_default packet "fromId" (PyStr "unknown") in
  process_telemetry datetime isoformat BATCH_SIZE post_device
    post_environment now_device now_environment packet r
  = Done tt
      (Reader
         (Uploader (api_base (the_uploader r))
            (pending_readings (the_uploader r)
             ++ match t !! "deviceMetrics" with
                | Some (PyDict m) =>
                    [device_reading datetime isoformat from_id now_device
                       (default_lat r) (default_lon r) m packet]
                | _ => []
                end
             ++ match t !! "environmentMetrics" with
                | Some (PyDict e) =>
                    [environment_reading datetime isoformat from_id
                       now_environment (default_lat r) (default_lon r) e]
                | _ => []
                end))
         (default_lat r) (default_lon r)) [].
Proof.
  intros Hdec Htel Hdev Hlt from_id.
  destruct r as [[base pending] lat lon].
  cbn [the_uploader pending_readings api_base default_lat default_lon] in *.
  set (h := λ _ : exn, Some (mret tt : M reader unit)).
  (* the environment group, from any state of the reader *)
  assert (Henv : ∀ p : list SensorReading,
    (Z.of_nat (length p) + 1 < BATCH_SIZE)%Z →
    try_except
      (has_environment ← lift (contains "environmentMetrics" (PyDict t));
       if (has_environment : bool) then
         env ← lift (getitem (PyDict t) "environmentMetrics");
         e ← lift (as_dict env);
         on_uploader
           (add_reading BATCH_SIZE post_environment
              (environment_reading datetime isoformat from_id
                 now_environment lat lon e))
       else mret tt) h (Reader (Uploader base p) lat lon)
    = Done tt
        (Reader
           (Uploader base
              (p ++ match t !! "environmentMetrics" with
                    | Some (PyDict e) =>
                        [environment_reading datetime isoformat from_id
                           now_environment lat lon e]
                    | _ => []
                    end))
           lat lon) []).
  { intros p Hp. cbn [contains getitem].
    destruct (t !! "environmentMetrics") as [ev|].
    - rewrite bool_decide_is_Some_Some.
      erewrite try_except_bind_done by reflexivity. cbv iota.
      erewrite try_except_bind_done by reflexivity.
      destruct ev as [| | | | | |e];
        try (rewrite app_nil_r; reflexivity).
      erewrite try_except_bind_done by reflexivity.
      apply try_except_done.
      rewrite on_uploader_add_reading_below by exact Hp. reflexivity.
    - rewrite bool_decide_is_Some_None.
      erewrite try_except_bind_done by reflexivity.
      rewrite app_nil_r. reflexivity. }
  unfold process_telemetry. fold h. rewrite Hdec.
  erewrite try_except_bind_done by reflexivity.
  erewrite try_except_bind_done by (cbn [getitem]; rewrite Htel; reflexivity).
  fold from_id. cbv zeta.
  erewrite try_except_bind_done by reflexivity.
  erewrite try_except_bind_done by reflexivity.
  erewrite try_except_bind_done by reflexivity.
  cbn [default_lat default_lon contains getitem].
  change (lift (inr (bool_decide (is_Some (t !! "environmentMetrics")))))
    with (lift (contains "environmentMetrics" (PyDict t)) : M reader bool).
  change (lift match t !! "environmentMetrics" with
               | Some x => inr x
               | None => inl KeyError
               end)
    with (lift (getitem (PyDict t) "environmentMetrics") : M reader pyval).
  destruct (t !! "deviceMetrics") as [dv|] eqn:Hd.
  - specialize (Hdev dv eq_refl). destruct dv as [| | | | | |d];
      try discriminate Hdev.
    erewrite (try_except_bind_done _ _ _ _
                (Reader (Uploader base
                   (pending ++ [device_reading datetime isoformat from_id
                                  now_device lat lon d packet])) lat lon)).
    2:{ rewrite bool_decide_is_Some_Some.
        rewrite (bind_done (lift (inr (PyDict d))) _ _ _ (PyDict d) [] eq_refl).
        rewrite after_nil'.
        rewrite (bind_done (lift (as_dict (PyDict d))) _ _ _ d [] eq_refl).
        rewrite after_nil'.
        rewrite on_uploader_add_reading_below by (simpl; lia). reflexivity. }
    rewrite Henv by (rewrite length_app; simpl; lia).
    rewrite (app_assoc pending). reflexivity.
  - erewrite try_except_bind_done by reflexivity.
    rewrite Henv by lia. reflexivity.
Qed.

End ProcessTelemetryFacts.

(** ** The further theorems at work on the sample inputs *)

(** A packet with three groups gives three records, in order. *)
Lemma add_telemetry_appends_group_records_witness :
  let packet := Samples.packet_of (PyDict Samples.three_groups) in
  let o := Meshtastic.add_telemetry Z Samples.iso 7%Z (PyStr "!a1b2") packet
             (Meshtastic.init Z 0) in
  Meshtastic.queue_lock (Meshtastic.init Z 0) = false
  ∧ packet !! "decoded"
    = Some (PyDict (Samples.decoded_of (PyDict Samples.three_groups)))
  ∧ Samples.decoded_of (PyDict Samples.three_groups) !! "telemetry"
    = Some (PyDict Samples.three_groups)
  ∧ returns o = true
  ∧ map (λ r, Normalizer.field r "telemetry_type")
        (Meshtastic.upload_queue (final o))
    = [Some (PyStr "device"); Some (PyStr "environment");
       Some (PyStr "air_quality")].
Proof.
  intros packet o.
  assert (H1 : Meshtastic.queue_lock (Meshtastic.init Z 0) = false)
    by reflexivity.
  assert (H2 : packet !! "decoded"
    = Some (PyDict (Samples.decoded_of (PyDict Samples.three_groups))))
    by (vm_compute; reflexivity).
  assert (H3 : Samples.decoded_of (PyDict Samples.three_groups) !! "telemetry"
    = Some (PyDict Samples.three_groups)) by (vm_compute; reflexivity).
  split; [exact H1|]. split; [exact H2|]. split; [exact H3|].
  subst o.
  rewrite (add_telemetry_appends_group_records Samples.iso 7%Z (PyStr "!a1b2")
             packet _ _ (Meshtastic.init Z 0) H1 H2 H3).
  split; vm_compute; reflexivity.
Defined.

(** Any packet, here the one with a bad device group: at most three records,
    here the environment record alone. *)
Lemma add_telemetry_only_appends_witness :
  let packet := Samples.packet_of (PyDict Samples.bad_device) in
  Meshtastic.queue_lock (Meshtastic.init Z 0) = false
  ∧ ∃ extra,
      Meshtastic.add_telemetry Z Samples.iso 7%Z (PyStr "!a1b2") packet
        (Meshtastic.init Z 0)
      = Done tt (Meshtastic.Uploader extra false true 0%Z 0%Z) []
      ∧ (length extra ≤ 3)%nat.
Proof.
  intros packet. split; [reflexivity|].
  destruct (add_telemetry_only_appends Samples.iso 7%Z (PyStr "!a1b2") packet
              (Meshtastic.init Z 0) eq_refl) as (extra & Hrun & Hlen & _).
  exists extra. split; [exact Hrun | exact Hlen].
Defined.

(** A text message is ignored, even while the lock is held. *)
Lemma add_telemetry_ignores_other_packets_witness :
  let s := Meshtastic.Uploader [Samples.A] true true 0%Z 0%Z in
  (∀ dec t, Samples.text_packet !! "decoded" = Some (PyDict dec) →
            dec !! "telemetry" ≠ Some (PyDict t))
  ∧ Meshtastic.add_telemetry Z Samples.iso 7%Z (PyStr "!a1b2")
      Samples.text_packet s = Done tt s [].
Proof.
  intros s.
  assert (H : ∀ dec t, Samples.text_packet !! "decoded" = Some (PyDict dec) →
                       dec !! "telemetry" ≠ Some (PyDict t)).
  { intros dec t Hdec. vm_compute in Hdec. injection Hdec as <-.
    vm_compute. discriminate. }
  split; [exact H|].
  exact (add_telemetry_ignores_other_packets Samples.iso 7%Z (PyStr "!a1b2")
           Samples.text_packet s H).
Defined.

(** A text message is counted as a packet, not as telemetry. *)
Lemma on_receive_counts_witness :
  let a := Meshtastic.App (Meshtastic.Receiver true true 7 3)
             (Meshtastic.init Z 0) in
  Meshtastic.queue_lock (Meshtastic.the_uploader a) = false
  ∧ Meshtastic._on_receive Z Samples.iso 7%Z Samples.text_packet a
    = Done tt
        (Meshtastic.App (Meshtastic.Receiver true true 8 3)
           (Meshtastic.init Z 0)) [].
Proof.
  intros a. split; [reflexivity|].
  rewrite (on_receive_counts Samples.iso 7%Z Samples.text_packet a eq_refl).
  vm_compute. reflexivity.
Defined.


(** A rejected turn, then an accepted one: three records in all. *)
Lemma worker_conserves_records_witness :
  let s := Meshtastic.Uploader [Samples.A; Samples.B; Samples.C] false true
             0%Z 0%Z in
  let inputs := [(Samples.ok 500, 1%Z); (Samples.ok 200, 2%Z)] in
  Meshtastic.queue_lock s = false
  ∧ Forall (λ i, Meshtastic.accepted i.1 || Meshtastic.rejected i.1 = true)
      inputs
  ∧ ∃ s' evs,
      Meshtastic._upload_worker Z (Samples.cfg 2) inputs s = Done tt s' evs
      ∧ (Meshtastic.total_uploaded s'
         + Z.of_nat (length (Meshtastic.upload_queue s')) = 3)%Z.
Proof.
  intros s inputs.
  assert (Hall : Forall (λ i, Meshtastic.accepted i.1
                               || Meshtastic.rejected i.1 = true) inputs)
    by (repeat constructor).
  split; [reflexivity|]. split; [exact Hall|].
  destruct (worker_conserves_records (Samples.cfg 2) inputs s eq_refl Hall)
    as (s' & evs & Hrun & _ & Hsum).
  exists s', evs. split; [exact Hrun | exact Hsum].
Defined.

(** Two turns of an outage. *)
Lemma worker_outage_keeps_queue_witness :
  let s := Meshtastic.Uploader [Samples.A; Samples.B; Samples.C] false true
             0%Z 0%Z in
  let inputs := [(Samples.ok 500, 1%Z); (Fails RequestException, 2%Z)] in
  Meshtastic.queue_lock s = false
  ∧ Forall (λ i, Meshtastic.rejected i.1 = true) inputs
  ∧ ∃ s' evs,
      Meshtastic._upload_worker Z (Samples.cfg 2) inputs s = Done tt s' evs
      ∧ Meshtastic.upload_queue s' ≡ₚ [Samples.A; Samples.B; Samples.C]
      ∧ Meshtastic.total_uploaded s' = 0%Z.
Proof.
  intros s inputs.
  assert (Hall : Forall (λ i, Meshtastic.rejected i.1 = true) inputs)
    by (repeat constructor).
  split; [reflexivity|]. split; [exact Hall|].
  destruct (worker_outage_keeps_queue (Samples.cfg 2) inputs s eq_refl Hall)
    as (s' & evs & Hrun & Hperm & Htot & _).
  exists s', evs. split; [exact Hrun|]. split; [exact Hperm | exact Htot].
Defined.

(** Two accepted turns send A, B, then C. *)
Lemma worker_uploads_in_order_witness :
  let s := Meshtastic.Uploader [Samples.A; Samples.B; Samples.C] false true
             0%Z 0%Z in
  let inputs := [(Samples.ok 200, 1%Z); (Samples.ok 201, 2%Z)] in
  Meshtastic.queue_lock s = false
  ∧ Forall (λ i, Meshtastic.accepted i.1 = true) inputs
  ∧ ∃ s' evs,
      Meshtastic._upload_worker Z (Samples.cfg 2) inputs s = Done tt s' evs
      ∧ (Summary.posted evs ++ Meshtastic.upload_queue s')%list
        = [Samples.A; Samples.B; Samples.C].
Proof.
  intros s inputs.
  assert (Hall : Forall (λ i, Meshtastic.accepted i.1 = true) inputs)
    by (repeat constructor).
  split; [reflexivity|]. split; [exact Hall|].
  destruct (worker_uploads_in_order (Samples.cfg 2) inputs s eq_refl Hall)
    as (s' & evs & Hrun & Hq & _).
  exists s', evs. split; [exact Hrun | exact Hq].
Defined.

(** A final POST that raises [TypeError]: the two records are gone. *)
Lemma shutdown_flush_outcomes_witness :
  let s := Meshtastic.Uploader [Samples.A; Samples.B] false true 0%Z 0%Z in
  Meshtastic.queue_lock s = false
  ∧ Meshtastic.upload_queue s ≠ []
  ∧ Meshtastic.rejected (Fails TypeError) = false
  ∧ ∃ s',
      Meshtastic.shutdown Z (Samples.cfg 2) (Fails TypeError) 9%Z false s
      = Done tt s'
          [CallPost (Meshtastic.upload_url (Samples.cfg 2))
             (PyList [Samples.A; Samples.B]) 30]
      ∧ Meshtastic.upload_queue s' = []
      ∧ Meshtastic.total_uploaded s' = 0%Z.
Proof.
  intros s. split; [reflexivity|]. split; [discriminate|].
  split; [reflexivity|].
  destruct (shutdown_flush_outcomes (Samples.cfg 2) s (Fails TypeError) 9%Z
              false [] eq_refl ltac:(discriminate) eq_refl)
    as (s' & Hrun & Hq & _ & _ & Htot & _).
  exists s'. split; [exact Hrun|]. split; [exact Hq | exact Htot].
Defined.

(** An ingestion route written with two trailing slashes. *)
Lemma upload_url_ignores_trailing_slashes_witness :
  "https://app.example" ≠ ""
  ∧ Meshtastic.upload_url
      (Meshtastic.Config "https://db.example" "https://app.example//" 10 30)
    = "https://app.example/api/ingest/meshtastic".
Proof.
  split; [discriminate|].
  destruct (upload_url_ignores_trailing_slashes "https://db.example"
              "https://app.example" 10 30 2) as (_ & Hurl & _).
  exact (Hurl ltac:(discriminate)).
Defined.

(** A reading with a temperature and no PM2.5 value. *)
Lemma payload_fields_witness :
  let r := Supabase.payload_of Samples.warm_reading in
  ("temperature_c", PyInt 21) ∈ Summary.optional_fields Samples.warm_reading
  ∧ ("pm25_ugm3", PyNone) ∈ Summary.optional_fields Samples.warm_reading
  ∧ Normalizer.field r "temperature_c" = Some (PyInt 21)
  ∧ Normalizer.field r "pm25_ugm3" = None.
Proof.
  intros r.
  assert (H1 : ("temperature_c", PyInt 21)
               ∈ Summary.optional_fields Samples.warm_reading)
    by (do 2 right; left).
  assert (H2 : ("pm25_ugm3", PyNone)
               ∈ Summary.optional_fields Samples.warm_reading) by left.
  destruct (payload_fields Samples.warm_reading) as (_ & _ & _ & Hopt & _).
  split; [exact H1|]. split; [exact H2|].
  split; [exact (Hopt _ _ H1) | exact (Hopt _ _ H2)].
Defined.

(** The single upload of a reading leaves its voltage out. *)
Lemma upload_single_result_witness :
  "voltage" ∈ ["altitude_m"; "voltage"; "battery_level"; "air_util_tx";
               "uptime_seconds"; "rssi"; "snr"; "raw_data"]
  ∧ Normalizer.field (Supabase.single_payload_of Samples.warm_reading)
      "voltage" = None.
Proof.
  assert (H : "voltage" ∈ ["altitude_m"; "voltage"; "battery_level";
                           "air_util_tx"; "uptime_seconds"; "rssi"; "snr";
                           "raw_data"]) by (right; left).
  split; [exact H|].
  destruct (upload_single_result (Samples.ok 200) Samples.warm_reading
              (Supabase.init "http://localhost:3000/")) as (_ & Hout).
  exact (Hout _ H).
Defined.

(** A number as device metrics: the environment metrics are not read. *)
Lemma bad_device_group_drops_packet_witness :
  let packet := Samples.packet_of (PyDict Samples.bad_device) in
  packet !! "decoded"
    = Some (PyDict (Samples.decoded_of (PyDict Samples.bad_device)))
  ∧ Samples.decoded_of (PyDict Samples.bad_device) !! "telemetry"
    = Some (PyDict Samples.bad_device)
  ∧ Samples.bad_device !! "deviceMetrics" = Some (PyInt 5)
  ∧ Summary.is_dict (PyInt 5) = false
  ∧ Supabase.on_receive Z Samples.iso 50 (Samples.ok 200) (Samples.ok 200)
      1%Z 2%Z packet Samples.reader = Done tt Samples.reader [].
Proof.
  intros packet.
  assert (H1 : packet !! "decoded"
    = Some (PyDict (Samples.decoded_of (PyDict Samples.bad_device))))
    by (vm_compute; reflexivity).
  assert (H2 : Samples.decoded_of (PyDict Samples.bad_device) !! "telemetry"
    = Some (PyDict Samples.bad_device)) by (vm_compute; reflexivity).
  assert (H3 : Samples.bad_device !! "deviceMetrics" = Some (PyInt 5))
    by (vm_compute; reflexivity).
  split; [exact H1|]. split; [exact H2|]. split; [exact H3|].
  split; [reflexivity|].
  exact (proj2 (bad_device_group_drops_packet Samples.iso 50 (Samples.ok 200)
                  (Samples.ok 200) 1%Z 2%Z packet _ _ (PyInt 5)
                  Samples.reader H1 H2 H3 eq_refl)).
Defined.

(** A packet with device and environment metrics: two readings pending. *)
Lemma process_telemetry_appends_readings_witness :
  let packet := Samples.packet_of (PyDict Samples.three_groups) in
  packet !! "decoded"
    = Some (PyDict (Samples.decoded_of (PyDict Samples.three_groups)))
  ∧ Samples.decoded_of (PyDict Samples.three_groups) !! "telemetry"
    = Some (PyDict Samples.three_groups)
  ∧ (∀ v, Samples.three_groups !! "deviceMetrics" = Some v →
          Summary.is_dict v = true)
  ∧ (Z.of_nat (length (Supabase.pending_readings
                         (Supabase.the_uploader Samples.reader))) + 2 < 50)%Z
  ∧ length (Supabase.pending_readings
              (Supabase.the_uploader
                 (final (Supabase.process_telemetry Z Samples.iso 50
                           (Samples.ok 200) (Samples.ok 200) 1%Z 2%Z packet
                           Samples.reader)))) = 2%nat.
Proof.
  intros packet.
  assert (H1 : packet !! "decoded"
    = Some (PyDict (Samples.decoded_of (PyDict Samples.three_groups))))
    by (vm_compute; reflexivity).
  assert (H2 : Samples.decoded_of (PyDict Samples.three_groups) !! "telemetry"
    = Some (PyDict Samples.three_groups)) by (vm_compute; reflexivity).
  assert (H3 : ∀ v, Samples.three_groups !! "deviceMetrics" = Some v →
                    Summary.is_dict v = true).
  { intros v Hv. vm_compute in Hv. injection Hv as <-. reflexivity. }
  assert (H4 : (Z.of_nat (length (Supabase.pending_readings
                  (Supabase.the_uploader Samples.reader))) + 2 < 50)%Z)
    by (simpl; lia).
  split; [exact H1|]. split; [exact H2|]. split; [exact H3|].
  split; [exact H4|].
  rewrite (process_telemetry_appends_readings Samples.iso 50 (Samples.ok 200)
             (Samples.ok 200) 1%Z 2%Z packet _ _ Samples.reader H1 H2 H3 H4).
  vm_compute. reflexivity.
Defined.

(** ** The enqueue paths, the network and the lock *)

Section EnqueueAndNetwork.

Import Meshtastic Summary.

Context {datetime : Type} (isoformat : datetime → string).


End EnqueueAndNetwork.


